(** * Infoscreen control loop (roles/infoscreen/templates/infoscreen.py)

    A shallow embedding of the tick-driven control loop of the infoscreen
    script: the shared [AppState] record, the three phases [handle_input],
    [update_data] and [draw_interface] that run once per tick, and the data
    helpers they call.

    Modelling choices.
    - Python integers are unbounded: every counter is a [Z].
    - Python floats are IEEE binary64: they are the kernel's primitive
      floats, so the timing constants are computed as the source computes
      them ([int(15.0 / LOOP_SPEED)] and the like).
    - Strings hold ASCII characters.
    - The outside world (GPIO, subprocesses, psutil, the drawing context and
      the display) is a log of calls, in program order; what the world
      answers during one tick is a [TickInput].
    - [exit(0)] and uncaught exceptions end the computation: a phase returns
      a [Res], and the monad [M] stops at the first abnormal result. *)

From Stdlib Require Import ZArith List String Ascii Bool Lia Floats.
Import ListNotations.
Open Scope string_scope.
Open Scope list_scope.
Open Scope Z_scope.

(** ** Python built-ins used by the script *)

Module Py.

(** [int(x)] on a finite float: truncation toward zero.  (On an infinity or
    a NaN Python raises; the constants below never get there.) *)
Definition int (x : float) : Z :=
  match Prim2SF x with
  | S754_finite sign m e =>
      let mag := if 0 <=? e then Z.shiftl (Zpos m) e
                 else Z.shiftr (Zpos m) (- e) in
      if sign then - mag else mag
  | _ => 0
  end.

Definition len (s : string) : Z := Z.of_nat (String.length s).

(** [c * n] for a one-character string [c]. *)
Fixpoint repeat_char (c : ascii) (n : nat) : string :=
  match n with
  | O => EmptyString
  | S k => String c (repeat_char c k)
  end.

(** Whitespace as [str.strip()] sees it, within ASCII: TAB..CR, FS..US and
    the space. *)
Definition isspace (c : ascii) : bool :=
  let n := Z.of_nat (nat_of_ascii c) in
  ((9 <=? n) && (n <=? 13)) || ((28 <=? n) && (n <=? 32)).

Fixpoint lstrip (s : string) : string :=
  match s with
  | EmptyString => EmptyString
  | String c r => if isspace c then lstrip r else s
  end.

Fixpoint rev_string (s acc : string) : string :=
  match s with
  | EmptyString => acc
  | String c r => rev_string r (String c acc)
  end.

Definition rstrip (s : string) : string :=
  rev_string (lstrip (rev_string s EmptyString)) EmptyString.

Definition strip (s : string) : string := rstrip (lstrip s).

Definition upper_char (c : ascii) : ascii :=
  let n := nat_of_ascii c in
  if ((97 <=? n) && (n <=? 122))%nat then ascii_of_nat (n - 32) else c.

Definition lower_char (c : ascii) : ascii :=
  let n := nat_of_ascii c in
  if ((65 <=? n) && (n <=? 90))%nat then ascii_of_nat (n + 32) else c.

Fixpoint map_string (f : ascii -> ascii) (s : string) : string :=
  match s with
  | EmptyString => EmptyString
  | String c r => String (f c) (map_string f r)
  end.

Definition upper (s : string) : string := map_string upper_char s.

Definition capitalize (s : string) : string :=
  match s with
  | EmptyString => EmptyString
  | String c r => String (upper_char c) (map_string lower_char r)
  end.

(** [s.center(width, fill)]: CPython pads [marg/2 + (marg & width & 1)]
    characters on the left and the rest on the right. *)
Definition center (s : string) (width : Z) (fill : ascii) : string :=
  let marg := width - len s in
  if marg <=? 0 then s
  else
    let left := marg / 2 + Z.land (Z.land marg width) 1 in
    (repeat_char fill (Z.to_nat left) ++ s
       ++ repeat_char fill (Z.to_nat (marg - left)))%string.

(** [sub in s]. *)
Fixpoint contains (sub s : string) : bool :=
  if String.prefix sub s then true
  else match s with
       | EmptyString => false
       | String _ r => contains sub r
       end.

End Py.

(** ** Configuration *)

Definition WIDTH : Z := 128.
Definition HEIGHT : Z := 32.
Definition PIN_BUTTON : Z := 20.

(** [0.1] is read as the nearest binary64 value, as Python reads it. *)
#[local] Set Warnings "-inexact-float".
Definition LOOP_SPEED : float := 0.1%float.
Definition SCREEN_TIMEOUT_TICKS : Z := Py.int (15.0 / LOOP_SPEED)%float.
Definition REBOOT_HOLD_TICKS : Z := Py.int (3.0 / LOOP_SPEED)%float.
Definition SHUTDOWN_HOLD_TICKS : Z := Py.int (6.0 / LOOP_SPEED)%float.
Definition STATS_UPDATE_TICKS : Z := Py.int (0.5 / LOOP_SPEED)%float.
Definition INFO_CYCLE_TICKS : Z := Py.int (2.0 / LOOP_SPEED)%float.

(** ** Enums and state *)

Inductive MenuState : Type := INFO | REBOOT_WAIT | SHUTDOWN_WAIT.

Inductive InfoScreen : Type := NETWORK | PERFORMANCE.

Record AppState : Type := mkAppState {
  mode : MenuState;
  screen : InfoScreen;
  display_timer : Z;
  btn_hold_ticks : Z;
  stats_tick : Z;
  cycle_tick : Z;
  cache_net : string * string;
  cache_perf : float * float * float
}.

(** [AppState()]: the dataclass defaults. *)
Definition AppState_default : AppState :=
  {| mode := INFO;
     screen := NETWORK;
     display_timer := SCREEN_TIMEOUT_TICKS;
     btn_hold_ticks := 0;
     stats_tick := STATS_UPDATE_TICKS;
     cycle_tick := 0;
     cache_net := ("Loading...", "...");
     cache_perf := (0%float, 0%float, 0%float) |}.

(** Attribute assignments [state.f = v]. *)
Definition set_mode (v : MenuState) (s : AppState) : AppState :=
  mkAppState v (screen s) (display_timer s) (btn_hold_ticks s)
             (stats_tick s) (cycle_tick s) (cache_net s) (cache_perf s).
Definition set_screen (v : InfoScreen) (s : AppState) : AppState :=
  mkAppState (mode s) v (display_timer s) (btn_hold_ticks s)
             (stats_tick s) (cycle_tick s) (cache_net s) (cache_perf s).
Definition set_display_timer (v : Z) (s : AppState) : AppState :=
  mkAppState (mode s) (screen s) v (btn_hold_ticks s)
             (stats_tick s) (cycle_tick s) (cache_net s) (cache_perf s).
Definition set_btn_hold_ticks (v : Z) (s : AppState) : AppState :=
  mkAppState (mode s) (screen s) (display_timer s) v
             (stats_tick s) (cycle_tick s) (cache_net s) (cache_perf s).
Definition set_stats_tick (v : Z) (s : AppState) : AppState :=
  mkAppState (mode s) (screen s) (display_timer s) (btn_hold_ticks s)
             v (cycle_tick s) (cache_net s) (cache_perf s).
Definition set_cycle_tick (v : Z) (s : AppState) : AppState :=
  mkAppState (mode s) (screen s) (display_timer s) (btn_hold_ticks s)
             (stats_tick s) v (cache_net s) (cache_perf s).
Definition set_cache_net (v : string * string) (s : AppState) : AppState :=
  mkAppState (mode s) (screen s) (display_timer s) (btn_hold_ticks s)
             (stats_tick s) (cycle_tick s) v (cache_perf s).
Definition set_cache_perf (v : float * float * float) (s : AppState)
  : AppState :=
  mkAppState (mode s) (screen s) (display_timer s) (btn_hold_ticks s)
             (stats_tick s) (cycle_tick s) (cache_net s) v.

Definition MenuState_eqb (a b : MenuState) : bool :=
  match a, b with
  | INFO, INFO | REBOOT_WAIT, REBOOT_WAIT | SHUTDOWN_WAIT, SHUTDOWN_WAIT => true
  | _, _ => false
  end.

Definition InfoScreen_eqb (a b : InfoScreen) : bool :=
  match a, b with
  | NETWORK, NETWORK | PERFORMANCE, PERFORMANCE => true
  | _, _ => false
  end.

(** ** The outside world *)

(** What [draw.text] is given: a string, or an f-string that formats a
    float with [:.1f] between a label and a percent sign. *)
Inductive Text : Type :=
| Plain (s : string)
| Percent1f (label : string) (v : float).

(** Calls that leave the program, in the order they are made. *)
Inductive Event : Type :=
| GpioInput (pin : Z)
| CheckOutput (cmd : string)
| CpuPercent
| VirtualMemory
| DiskUsage (path : string)
| Popen (cmd : string)
| DrawRectangle (x0 y0 x1 y1 : Z)
| DrawText (x y : Z) (t : Text)
| DispImage
| DispShow
| DispFill (v : Z)
| GpioCleanup
| Sleep (secs : float).

(** The answers of the world during one tick: the level read on the button
    pin, the decoded output of each of the two [hostname] commands ([None]
    when [check_output] or [decode] raises), and the psutil readings. *)
Record TickInput : Type := mkTickInput {
  gpio_level : Z;
  hostname_out : option string;
  hostname_I_out : option string;
  cpu_percent : float;
  mem_percent : float;
  disk_percent : float
}.

(** ** Results and the effect monad *)

Inductive Res (A : Type) : Type :=
| Ok (a : A)                 (* normal completion *)
| Exited (code : Z)          (* [exit(code)] *)
| Raised (cmd : string).     (* uncaught failure of the command [cmd] *)
Arguments Ok {A} a.
Arguments Exited {A} code.
Arguments Raised {A} cmd.

Definition M (A : Type) : Type := (list Event * Res A)%type.

Definition ret {A} (a : A) : M A := ([], Ok a).

Definition bind {A B} (m : M A) (k : A -> M B) : M B :=
  match m with
  | (l, Ok a) => let (l', r) := k a in (l ++ l', r)
  | (l, Exited c) => (l, Exited c)
  | (l, Raised e) => (l, Raised e)
  end.

Definition emit (e : Event) : M unit := ([e], Ok tt).
Definition exit {A} (code : Z) : M A := ([], Exited code).
Definition raise {A} (cmd : string) : M A := ([], Raised cmd).

(** [try: m  except: h] with a bare [except], which also catches
    [SystemExit]. *)
Definition try_except {A} (m : M A) (h : M A) : M A :=
  match m with
  | (l, Ok a) => (l, Ok a)
  | (l, _) => let (l', r) := h in (l ++ l', r)
  end.

Declare Scope py_scope.
Delimit Scope py_scope with py.
Notation "x <- m ;; k" := (bind m (fun x => k))
  (at level 61, m at next level, right associativity) : py_scope.
Notation "m ;; k" := (bind m (fun _ => k))
  (at level 61, right associativity) : py_scope.
Open Scope py_scope.

Definition events {A} (m : M A) : list Event := fst m.
Definition result {A} (m : M A) : Res A := snd m.

(** ** Data helpers *)

(** [subprocess.check_output(cmd, shell=True).decode("utf-8")], given what
    the world answers. *)
Definition check_output (cmd : string) (answer : option string) : M string :=
  emit (CheckOutput cmd);;
  match answer with
  | Some out => ret out
  | None => raise cmd
  end.

Definition get_network_info (i : TickInput) : M (string * string) :=
  host <- (out <- check_output "hostname" (hostname_out i);;
           ret (Py.strip out));;
  ip <- try_except
          (out <- check_output "hostname -I | cut -d' ' -f1" (hostname_I_out i);;
           ret (Py.strip out))
          (ret "No IP");;
  ret (host, ip).

Definition get_performance_info (i : TickInput) : M (float * float * float) :=
  emit CpuPercent;;
  emit VirtualMemory;;
  emit (DiskUsage "/");;
  ret (cpu_percent i, mem_percent i, disk_percent i).

Definition run_sys_command (cmd : string) : M unit :=
  emit (Popen cmd).

(** ** Drawing *)

Definition draw_overlay (text_or_action : string) : M unit :=
  emit (DrawRectangle 0 0 WIDTH HEIGHT);;
  if Py.contains "..." text_or_action then
    emit (DrawText 0 0 (Plain (Py.center text_or_action 20 "-")))
  else
    emit (DrawText 0 0 (Plain (Py.center (Py.upper text_or_action) 18 ".")));;
    emit (DrawText 0 11 (Plain "  Release Button  "));;
    emit (DrawText 0 21
            (Plain (Py.center ("To " ++ Py.capitalize text_or_action) 21 " "))).

(** ** Phase 1: button input and state transitions *)

Definition is_pressed (i : TickInput) : bool := gpio_level i =? 0.

Definition handle_input (state : AppState) (i : TickInput) : M AppState :=
  emit (GpioInput PIN_BUTTON);;
  if is_pressed i then
    let state := set_display_timer SCREEN_TIMEOUT_TICKS state in
    let state := set_btn_hold_ticks (btn_hold_ticks state + 1) state in
    if btn_hold_ticks state >=? SHUTDOWN_HOLD_TICKS then
      ret (set_mode SHUTDOWN_WAIT state)
    else if btn_hold_ticks state >=? REBOOT_HOLD_TICKS then
      ret (set_mode REBOOT_WAIT state)
    else ret state
  else
    if btn_hold_ticks state >? 0 then
      match mode state with
      | REBOOT_WAIT =>
          draw_overlay "Rebooting...";;
          emit DispImage;;
          emit DispShow;;
          run_sys_command "sudo reboot now";;
          exit 0
      | SHUTDOWN_WAIT =>
          draw_overlay "Shutting Down...";;
          emit DispImage;;
          emit DispShow;;
          run_sys_command "sudo shutdown now";;
          exit 0
      | INFO => ret tt
      end;;
      let state := set_mode INFO state in
      let state := set_screen NETWORK state in
      let state := set_cycle_tick 0 state in
      let state := set_btn_hold_ticks 0 state in
      ret state
    else ret state.

(** ** Phase 2: timers, screen cycling and statistics *)

(** Step 1 of [update_data], "Cycle Screens". *)
Definition cycle_screens (state : AppState) : AppState :=
  if cycle_tick state >=? INFO_CYCLE_TICKS then
    let state :=
      set_screen (if InfoScreen_eqb (screen state) NETWORK
                  then PERFORMANCE else NETWORK) state in
    let state := set_stats_tick STATS_UPDATE_TICKS state in
    set_cycle_tick 0 state
  else set_cycle_tick (cycle_tick state + 1) state.

(** Step 2 of [update_data], "Fetch Stats". *)
Definition fetch_stats (state : AppState) (i : TickInput) : M AppState :=
  if stats_tick state >=? STATS_UPDATE_TICKS then
    state <- (if InfoScreen_eqb (screen state) NETWORK then
                net <- get_network_info i;;
                ret (set_cache_net net state)
              else
                perf <- get_performance_info i;;
                ret (set_cache_perf perf state));;
    ret (set_stats_tick 0 state)
  else ret (set_stats_tick (stats_tick state + 1) state).

Definition update_data (state : AppState) (i : TickInput) : M AppState :=
  if (display_timer state <=? 0) || negb (MenuState_eqb (mode state) INFO)
  then ret state
  else fetch_stats (cycle_screens state) i.

(** ** Phase 3: rendering *)

Definition draw_interface (state : AppState) : M AppState :=
  emit (DrawRectangle 0 0 WIDTH HEIGHT);;
  state <- (if display_timer state >? 0 then
              match mode state with
              | INFO =>
                  if InfoScreen_eqb (screen state) NETWORK then
                    let '(h, ip) := cache_net state in
                    emit (DrawText 0 0 (Plain ("HOST: " ++ h)));;
                    emit (DrawText 0 11 (Plain ("IP  : " ++ ip)));;
                    emit (DrawText 0 21 (Plain (Py.repeat_char "-" 20)))
                  else
                    let '(c, m, d) := cache_perf state in
                    emit (DrawText 0 0 (Percent1f "CPU : " c));;
                    emit (DrawText 0 11 (Percent1f "RAM : " m));;
                    emit (DrawText 0 21 (Percent1f "DISK: " d))
              | REBOOT_WAIT => draw_overlay "REBOOT"
              | SHUTDOWN_WAIT => draw_overlay "SHUTDOWN"
              end;;
              ret (set_display_timer (display_timer state - 1) state)
            else ret state);;
  emit DispImage;;
  emit DispShow;;
  ret state.

(** ** The main loop *)

(** One iteration of [while True]. *)
Definition tick (i : TickInput) (state : AppState) : M AppState :=
  state <- handle_input state i;;
  state <- update_data state i;;
  state <- draw_interface state;;
  emit (Sleep LOOP_SPEED);;
  ret state.

(** The loop over the ticks whose inputs are given. *)
Fixpoint main_loop (ins : list TickInput) (state : AppState) : M AppState :=
  match ins with
  | [] => ret state
  | i :: rest => state <- tick i state;; main_loop rest state
  end.

(** [main()], observed for as many ticks as there are inputs.  [Ok] means
    the loop is still running; when the loop is left by [exit] or by a
    failure, the [finally] block runs.  (Keyboard interrupts are not
    modelled.) *)
Definition main (ins : list TickInput) : M AppState :=
  let body :=
    draw_overlay "Infoscreen Started...";;
    emit DispImage;;
    emit DispShow;;
    emit (Sleep 2%float);;
    main_loop ins AppState_default in
  match body with
  | (l, Ok s) => (l, Ok s)
  | (l, r) => (l ++ [DispFill 0; DispShow; GpioCleanup], r)
  end.

(** States between two ticks of a run that started from [AppState()]. *)
Inductive reachable : AppState -> Prop :=
| reachable_start : reachable AppState_default
| reachable_tick : forall s i l s',
    reachable s -> tick i s = (l, Ok s') -> reachable s'.

(** Calls to the statistics providers, and power commands, in a log. *)
Definition is_fetch_call (e : Event) : bool :=
  match e with
  | CheckOutput _ | CpuPercent | VirtualMemory | DiskUsage _ => true
  | _ => false
  end.

Definition fetch_calls (l : list Event) : list Event := filter is_fetch_call l.

Fixpoint power_actions (l : list Event) : list string :=
  match l with
  | [] => []
  | Popen cmd :: r => cmd :: power_actions r
  | _ :: r => power_actions r
  end.

(** The providers' calls for one screen. *)
Definition provider_calls (sc : InfoScreen) (i : TickInput) : list Event :=
  match sc with
  | NETWORK => events (get_network_info i)
  | PERFORMANCE => events (get_performance_info i)
  end.

(** The 1-based numbers of the ticks of a run in which [screen] changed,
    counting from [n + 1]. *)
Fixpoint toggle_ticks (n : Z) (ins : list TickInput) (state : AppState)
  : list Z :=
  match ins with
  | [] => []
  | i :: rest =>
      match tick i state with
      | (_, Ok state') =>
          (if InfoScreen_eqb (screen state) (screen state') then []
           else [n + 1]) ++ toggle_ticks (n + 1) rest state'
      | _ => []
      end
  end.

(** Sample inputs: a quiet tick and a tick with the button down. *)
Definition nl : string := String (ascii_of_nat 10) EmptyString.

Definition idle_input : TickInput :=
  mkTickInput 1 (Some ("node1" ++ nl)%string) (Some ("10.0.0.7 " ++ nl)%string)
              12.5%float 40%float 71%float.

Definition pressed_input : TickInput :=
  mkTickInput 0 (Some ("node1" ++ nl)%string) (Some ("10.0.0.7 " ++ nl)%string)
              12.5%float 40%float 71%float.

(** The hold counter and the mode agree: the mode is the one the two
    thresholds give for the counter. *)
Definition classified (s : AppState) : Prop :=
  (SHUTDOWN_HOLD_TICKS <= btn_hold_ticks s -> mode s = SHUTDOWN_WAIT) /\
  (REBOOT_HOLD_TICKS <= btn_hold_ticks s < SHUTDOWN_HOLD_TICKS ->
   mode s = REBOOT_WAIT) /\
  (btn_hold_ticks s < REBOOT_HOLD_TICKS -> mode s = INFO).

(** The state after 150 quiet ticks from the start: the display is asleep. *)
Definition asleep_state : AppState :=
  {| mode := INFO;
     screen := PERFORMANCE;
     display_timer := 0;
     btn_hold_ticks := 0;
     stats_tick := 3;
     cycle_tick := 3;
     cache_net := ("node1", "10.0.0.7");
     cache_perf := (12.5%float, 40%float, 71%float) |}.

(** The state after 20 quiet ticks from the start: the cycle counter has
    reached the cycle period. *)
Definition cycle_due_state : AppState :=
  {| mode := INFO;
     screen := NETWORK;
     display_timer := 130;
     btn_hold_ticks := 0;
     stats_tick := 1;
     cycle_tick := 20;
     cache_net := ("node1", "10.0.0.7");
     cache_perf := (0%float, 0%float, 0%float) |}.

(** A quiet tick during which [hostname -I] fails, and one during which
    [hostname] fails. *)
Definition no_ip_input : TickInput :=
  mkTickInput 1 (Some ("node1" ++ nl)%string) None 12.5%float 40%float 71%float.

Definition no_hostname_input : TickInput :=
  mkTickInput 1 None (Some ("10.0.0.7 " ++ nl)%string)
              12.5%float 40%float 71%float.

(** A tick with the button up during which [hostname] answers. *)
Definition quiet (i : TickInput) : Prop :=
  is_pressed i = false /\ hostname_out i <> None.


Definition is_draw_text (e : Event) : bool :=
  match e with
  | DrawText _ _ _ => true
  | _ => false
  end.

(** The overlay that confirms a power command, and the log of the tick that
    issues it. *)
Definition reboot_release_log : list Event :=
  [GpioInput PIN_BUTTON; DrawRectangle 0 0 WIDTH HEIGHT;
   DrawText 0 0 (Plain "----Rebooting...----");
   DispImage; DispShow; Popen "sudo reboot now"].

Definition shutdown_release_log : list Event :=
  [GpioInput PIN_BUTTON; DrawRectangle 0 0 WIDTH HEIGHT;
   DrawText 0 0 (Plain "--Shutting Down...--");
   DispImage; DispShow; Popen "sudo shutdown now"].

(** The state after 30 ticks with the button down from the start. *)
Definition held_reboot_state : AppState :=
  {| mode := REBOOT_WAIT;
     screen := PERFORMANCE;
     display_timer := 149;
     btn_hold_ticks := 30;
     stats_tick := 2;
     cycle_tick := 8;
     cache_net := ("node1", "10.0.0.7");
     cache_perf := (12.5%float, 40%float, 71%float) |}.

(** What [main] does before the loop, and in its [finally] block. *)
Definition splash_log : list Event :=
  [DrawRectangle 0 0 WIDTH HEIGHT;
   DrawText 0 0 (Plain "Infoscreen Started...");
   DispImage; DispShow; Sleep 2%float].

Definition finally_log : list Event := [DispFill 0; DispShow; GpioCleanup].

(** The [draw.text] calls of a log, in order: the lines of the frames. *)
Definition text_lines (l : list Event) : list Event := filter is_draw_text l.

(** A string that begins, or ends, with a whitespace character. *)
Definition starts_with_space (s : string) : bool :=
  match s with
  | EmptyString => false
  | String c _ => Py.isspace c
  end.

Definition ends_with_space (s : string) : bool :=
  starts_with_space (Py.rev_string s EmptyString).

(** The number of ticks with the button down at the end of a sequence of
    ticks, after [h] such ticks before it. *)
Definition held_run_from (h : Z) (ins : list TickInput) : Z :=
  fold_left (fun h i => if is_pressed i then h + 1 else 0) ins h.

Definition held_run (ins : list TickInput) : Z := held_run_from 0 ins.

(** * Properties *)

(** ** The timing constants *)

Lemma SCREEN_TIMEOUT_TICKS_eq : SCREEN_TIMEOUT_TICKS = 150.
Proof. vm_compute. reflexivity. Qed.

Lemma REBOOT_HOLD_TICKS_eq : REBOOT_HOLD_TICKS = 30.
Proof. vm_compute. reflexivity. Qed.

Lemma SHUTDOWN_HOLD_TICKS_eq : SHUTDOWN_HOLD_TICKS = 60.
Proof. vm_compute. reflexivity. Qed.

Lemma STATS_UPDATE_TICKS_eq : STATS_UPDATE_TICKS = 5.
Proof. vm_compute. reflexivity. Qed.

Lemma INFO_CYCLE_TICKS_eq : INFO_CYCLE_TICKS = 20.
Proof. vm_compute. reflexivity. Qed.

#[global] Opaque SCREEN_TIMEOUT_TICKS REBOOT_HOLD_TICKS SHUTDOWN_HOLD_TICKS
  STATS_UPDATE_TICKS INFO_CYCLE_TICKS.

(** Replace the constants by their values everywhere. *)
Ltac consts :=
  rewrite ?SCREEN_TIMEOUT_TICKS_eq, ?REBOOT_HOLD_TICKS_eq,
    ?SHUTDOWN_HOLD_TICKS_eq, ?STATS_UPDATE_TICKS_eq, ?INFO_CYCLE_TICKS_eq in *.

(** Split on the comparisons of the program and let [lia] see them. *)
Ltac tests :=
  repeat match goal with
  | |- context [?a >=? ?b] => destruct (Z.geb_spec a b)
  | |- context [?a >? ?b] => destruct (Z.gtb_spec a b)
  | |- context [?a <=? ?b] => destruct (Z.leb_spec a b)
  | |- context [?a =? ?b] => destruct (Z.eqb_spec a b)
  end.

Example try_strip : Py.strip ("  node1 " ++ nl) = "node1".
Proof. reflexivity. Qed.

Example try_center_message : Py.center "Rebooting..." 20 "-" = "----Rebooting...----".
Proof. reflexivity. Qed.

Example try_draw_overlay_menu :
  draw_overlay "REBOOT"
  = ([DrawRectangle 0 0 128 32;
      DrawText 0 0 (Plain "......REBOOT......");
      DrawText 0 11 (Plain "  Release Button  ");
      DrawText 0 21 (Plain "      To Reboot      ")], Ok tt).
Proof. reflexivity. Qed.

Example try_held_then_released :
  result (main (repeat pressed_input 29 ++ [idle_input; idle_input]))
  = Ok {| mode := INFO; screen := NETWORK; display_timer := 147;
          btn_hold_ticks := 0; stats_tick := 4; cycle_tick := 2;
          cache_net := ("node1", "10.0.0.7");
          cache_perf := (12.5%float, 40%float, 71%float) |} /\
  main (repeat pressed_input 60 ++ [idle_input; idle_input])
  = (events (main (repeat pressed_input 60)) ++
     [GpioInput 20; DrawRectangle 0 0 128 32;
      DrawText 0 0 (Plain "--Shutting Down...--"); DispImage; DispShow;
      Popen "sudo shutdown now"; DispFill 0; DispShow; GpioCleanup],
     Exited 0).
Proof. split; vm_compute; reflexivity. Qed.

Example try_center_menu :
  Py.center ("To " ++ Py.capitalize "REBOOT") 21 " " = "      To Reboot      ".
Proof. reflexivity. Qed.

(** ** The initial state *)

(** C3, as the code has it: at process start the state is [AppState()],
    with mode INFO, screen NETWORK, the display timer at its maximum, the
    hold and cycle counters at zero, the statistics counter at its trigger
    value (not zero: the first tick refreshes), and the placeholder caches;
    [main] enters the loop with exactly this state. *)
Theorem initial_state :
  result (main []) = Ok AppState_default /\
  mode AppState_default = INFO /\
  screen AppState_default = NETWORK /\
  display_timer AppState_default = SCREEN_TIMEOUT_TICKS /\
  btn_hold_ticks AppState_default = 0 /\
  cycle_tick AppState_default = 0 /\
  stats_tick AppState_default = STATS_UPDATE_TICKS /\
  0 < STATS_UPDATE_TICKS /\
  cache_net AppState_default = ("Loading...", "...") /\
  cache_perf AppState_default = (0%float, 0%float, 0%float).
Proof.
  repeat split; reflexivity.
Qed.

(** C3 as written fails: the three tick counters are not all zero. *)
Lemma initial_counters_not_all_zero :
  ~ (btn_hold_ticks AppState_default = 0 /\
     cycle_tick AppState_default = 0 /\
     stats_tick AppState_default = 0).
Proof.
  intros (_ & _ & H). cbn in H. rewrite STATS_UPDATE_TICKS_eq in H. lia.
Qed.

(** ** The Data Refresher is frozen outside INFO and while asleep *)

Lemma MenuState_eqb_eq (a b : MenuState) : MenuState_eqb a b = true <-> a = b.
Proof. destruct a, b; cbn; split; congruence. Qed.

Lemma MenuState_eqb_neq (a b : MenuState) : MenuState_eqb a b = false <-> a <> b.
Proof. destruct a, b; cbn; split; congruence. Qed.

(** C9: when the mode is not INFO or the display timer is not positive,
    [update_data] returns the state as it got it and calls nothing. *)
Theorem update_data_frozen (s : AppState) (i : TickInput) :
  mode s <> INFO \/ display_timer s <= 0 ->
  update_data s i = ([], Ok s).
Proof.
  intros H. unfold update_data.
  destruct (Z.leb_spec (display_timer s) 0) as [Hle | Hgt]; [reflexivity|].
  destruct H as [H | H]; [| lia].
  apply MenuState_eqb_neq in H. rewrite H. reflexivity.
Qed.

Lemma update_data_frozen_witness :
  (mode (set_mode REBOOT_WAIT AppState_default) <> INFO \/
   display_timer (set_mode REBOOT_WAIT AppState_default) <= 0) /\
  update_data (set_mode REBOOT_WAIT AppState_default) idle_input
  = ([], Ok (set_mode REBOOT_WAIT AppState_default)).
Proof.
  split.
  - left. cbn. discriminate.
  - apply update_data_frozen. left. cbn. discriminate.
Defined.

(** ** Logs of composed computations *)

Lemma events_bind {A B} (m : M A) (k : A -> M B) :
  events (bind m k)
  = events m ++ match result m with
                | Ok a => events (k a)
                | _ => []
                end.
Proof.
  destruct m as [l [a | c | e]]; cbn; rewrite ?app_nil_r; try reflexivity.
  destruct (k a); reflexivity.
Qed.

Lemma result_bind {A B} (m : M A) (k : A -> M B) :
  result (bind m k)
  = match result m with
    | Ok a => result (k a)
    | Exited c => Exited c
    | Raised e => Raised e
    end.
Proof.
  destruct m as [l [a | c | e]]; cbn; try reflexivity.
  destruct (k a); reflexivity.
Qed.

Lemma bind_Ok {A B} (m : M A) (k : A -> M B) l a :
  m = (l, Ok a) -> bind m k = (l ++ events (k a), result (k a)).
Proof. intros ->. cbn. destruct (k a); reflexivity. Qed.

Lemma bind_Ok_inv {A B} (m : M A) (k : A -> M B) l b :
  bind m k = (l, Ok b) ->
  exists l1 a l2, m = (l1, Ok a) /\ k a = (l2, Ok b) /\ l = l1 ++ l2.
Proof.
  destruct m as [l1 [a | c | e]]; cbn; try discriminate.
  destruct (k a) as [l2 r] eqn:E. intros [= <- ->]. eauto 6.
Qed.

Lemma power_actions_app (l1 l2 : list Event) :
  power_actions (l1 ++ l2) = power_actions l1 ++ power_actions l2.
Proof.
  induction l1 as [| e l1 IH]; [reflexivity|].
  destruct e; cbn; rewrite IH; reflexivity.
Qed.

Lemma fetch_calls_app (l1 l2 : list Event) :
  fetch_calls (l1 ++ l2) = fetch_calls l1 ++ fetch_calls l2.
Proof. apply filter_app. Qed.

(** ** What each phase leaves alone *)

Lemma get_network_info_cases (i : TickInput) :
  get_network_info i =
  match hostname_out i, hostname_I_out i with
  | None, _ => ([CheckOutput "hostname"], Raised "hostname")
  | Some h, Some a =>
      ([CheckOutput "hostname"; CheckOutput "hostname -I | cut -d' ' -f1"],
       Ok (Py.strip h, Py.strip a))
  | Some h, None =>
      ([CheckOutput "hostname"; CheckOutput "hostname -I | cut -d' ' -f1"],
       Ok (Py.strip h, "No IP"))
  end.
Proof.
  unfold get_network_info.
  destruct (hostname_out i), (hostname_I_out i); reflexivity.
Qed.

Lemma fetch_stats_cases (s : AppState) (i : TickInput) :
  fetch_stats s i =
  if stats_tick s >=? STATS_UPDATE_TICKS then
    match screen s with
    | NETWORK =>
        match get_network_info i with
        | (l, Ok net) => (l, Ok (set_stats_tick 0 (set_cache_net net s)))
        | (l, Exited c) => (l, Exited c)
        | (l, Raised e) => (l, Raised e)
        end
    | PERFORMANCE =>
        ([CpuPercent; VirtualMemory; DiskUsage "/"],
         Ok (set_stats_tick 0
               (set_cache_perf (cpu_percent i, mem_percent i, disk_percent i) s)))
    end
  else ([], Ok (set_stats_tick (stats_tick s + 1) s)).
Proof.
  unfold fetch_stats.
  destruct (stats_tick s >=? STATS_UPDATE_TICKS); [| reflexivity].
  destruct (screen s); cbn [InfoScreen_eqb]; [| reflexivity].
  destruct (get_network_info i) as [l [net | c | e]]; cbn;
    rewrite ?app_nil_r; reflexivity.
Qed.

(** [update_data] touches the screen, the two counters and the caches
    only. *)
Lemma update_data_frame (s : AppState) (i : TickInput) l s' :
  update_data s i = (l, Ok s') ->
  mode s' = mode s /\ display_timer s' = display_timer s /\
  btn_hold_ticks s' = btn_hold_ticks s.
Proof.
  unfold update_data.
  destruct (_ || _); [intros [= <- <-]; auto|].
  rewrite fetch_stats_cases, get_network_info_cases. unfold cycle_screens.
  destruct (cycle_tick s >=? INFO_CYCLE_TICKS);
    cbn [stats_tick screen set_screen set_stats_tick set_cycle_tick];
    destruct (_ >=? _); try destruct (screen s); cbn [InfoScreen_eqb];
    try destruct (hostname_out i); try destruct (hostname_I_out i);
    intros [= <- <-]; auto.
Qed.

Lemma update_data_no_power (s : AppState) (i : TickInput) :
  power_actions (events (update_data s i)) = [].
Proof.
  unfold update_data.
  destruct (_ || _); [reflexivity|].
  rewrite fetch_stats_cases, get_network_info_cases.
  destruct (_ >=? _); [| reflexivity].
  destruct (screen (cycle_screens s)); [| reflexivity].
  destruct (hostname_out i); try destruct (hostname_I_out i); reflexivity.
Qed.

(** [draw_interface] always completes: it clears the buffer, draws the
    content of the current mode when the timer is positive, pushes the
    frame, and changes nothing but the timer. *)
Lemma draw_interface_shape (s : AppState) :
  exists body,
    draw_interface s
    = (DrawRectangle 0 0 WIDTH HEIGHT :: body ++ [DispImage; DispShow],
       Ok (if display_timer s >? 0
           then set_display_timer (display_timer s - 1) s else s)) /\
    (display_timer s <= 0 -> body = []) /\
    (0 < display_timer s -> body <> []) /\
    power_actions body = [] /\ fetch_calls body = [].
Proof.
  unfold draw_interface.
  destruct (Z.gtb_spec (display_timer s) 0) as [Hpos | Hle].
  - destruct (mode s).
    + destruct (screen s); cbn [InfoScreen_eqb].
      * destruct (cache_net s) as [h ip]. eexists. split; [reflexivity|].
        repeat split; try reflexivity; try lia; discriminate.
      * destruct (cache_perf s) as [[c m] d]. eexists. split; [reflexivity|].
        repeat split; try reflexivity; try lia; discriminate.
    + eexists. split; [reflexivity|].
      repeat split; try reflexivity; try lia; discriminate.
    + eexists. split; [reflexivity|].
      repeat split; try reflexivity; try lia; discriminate.
  - exists []. repeat split; try reflexivity; try lia.
Qed.

Lemma draw_interface_frame (s : AppState) l s' :
  draw_interface s = (l, Ok s') ->
  mode s' = mode s /\ screen s' = screen s /\
  btn_hold_ticks s' = btn_hold_ticks s /\ stats_tick s' = stats_tick s /\
  cycle_tick s' = cycle_tick s /\ cache_net s' = cache_net s /\
  cache_perf s' = cache_perf s /\
  display_timer s' = (if display_timer s >? 0
                      then display_timer s - 1 else display_timer s) /\
  power_actions l = [] /\ fetch_calls l = [].
Proof.
  destruct (draw_interface_shape s) as (body & E & _ & _ & Hp & Hf).
  rewrite E. intros [= <- <-].
  change (DrawRectangle 0 0 WIDTH HEIGHT :: body ++ [DispImage; DispShow])
    with ([DrawRectangle 0 0 WIDTH HEIGHT] ++ body ++ [DispImage; DispShow]).
  rewrite !power_actions_app, !fetch_calls_app, Hp, Hf.
  destruct (display_timer s >? 0); repeat split; reflexivity.
Qed.

(** ** The Input Classifier on release *)

Lemma handle_input_release_info (s : AppState) (i : TickInput) :
  is_pressed i = false -> btn_hold_ticks s > 0 -> mode s = INFO ->
  handle_input s i
  = ([GpioInput PIN_BUTTON],
     Ok (set_btn_hold_ticks 0
           (set_cycle_tick 0 (set_screen NETWORK (set_mode INFO s))))).
Proof.
  intros Hp Hh Hm. unfold handle_input. rewrite Hp, Hm.
  destruct (Z.gtb_spec (btn_hold_ticks s) 0); [reflexivity | lia].
Qed.

Lemma handle_input_release_reboot (s : AppState) (i : TickInput) :
  is_pressed i = false -> btn_hold_ticks s > 0 -> mode s = REBOOT_WAIT ->
  handle_input s i
  = ([GpioInput PIN_BUTTON; DrawRectangle 0 0 WIDTH HEIGHT;
      DrawText 0 0 (Plain "----Rebooting...----");
      DispImage; DispShow; Popen "sudo reboot now"],
     Exited 0).
Proof.
  intros Hp Hh Hm. unfold handle_input. rewrite Hp, Hm.
  destruct (Z.gtb_spec (btn_hold_ticks s) 0); [reflexivity | lia].
Qed.

Lemma handle_input_release_shutdown (s : AppState) (i : TickInput) :
  is_pressed i = false -> btn_hold_ticks s > 0 -> mode s = SHUTDOWN_WAIT ->
  handle_input s i
  = ([GpioInput PIN_BUTTON; DrawRectangle 0 0 WIDTH HEIGHT;
      DrawText 0 0 (Plain "--Shutting Down...--");
      DispImage; DispShow; Popen "sudo shutdown now"],
     Exited 0).
Proof.
  intros Hp Hh Hm. unfold handle_input. rewrite Hp, Hm.
  destruct (Z.gtb_spec (btn_hold_ticks s) 0); [reflexivity | lia].
Qed.

Lemma main_loop_cons (i : TickInput) (rest : list TickInput) (s : AppState) :
  main_loop (i :: rest) s = bind (tick i s) (main_loop rest).
Proof. reflexivity. Qed.

Lemma main_loop_stops (i : TickInput) (rest : list TickInput) (s : AppState) l :
  (exists c, handle_input s i = (l, Exited c)) ->
  main_loop (i :: rest) s = handle_input s i.
Proof.
  intros [c E]. rewrite main_loop_cons. unfold tick. rewrite E. reflexivity.
Qed.

(** C6: a release (button up, hold counter positive) in REBOOT_WAIT runs
    the reboot command once, runs no other command, and exits: the loop runs
    no further tick.  A release in SHUTDOWN_WAIT does the same with the
    shutdown command. *)
Theorem release_confirms_action (s : AppState) (i : TickInput)
  (rest : list TickInput) :
  is_pressed i = false -> btn_hold_ticks s > 0 ->
  (mode s = REBOOT_WAIT ->
     power_actions (events (handle_input s i)) = ["sudo reboot now"] /\
     result (handle_input s i) = Exited 0 /\
     main_loop (i :: rest) s = handle_input s i) /\
  (mode s = SHUTDOWN_WAIT ->
     power_actions (events (handle_input s i)) = ["sudo shutdown now"] /\
     result (handle_input s i) = Exited 0 /\
     main_loop (i :: rest) s = handle_input s i).
Proof.
  intros Hp Hh. split; intros Hm.
  - pose proof (handle_input_release_reboot s i Hp Hh Hm) as E.
    rewrite (main_loop_stops i rest s _ (ex_intro _ 0 E)), E.
    repeat split; reflexivity.
  - pose proof (handle_input_release_shutdown s i Hp Hh Hm) as E.
    rewrite (main_loop_stops i rest s _ (ex_intro _ 0 E)), E.
    repeat split; reflexivity.
Qed.

(** C7: a release in INFO (a short tap) runs no command, neither in the
    Input Classifier nor in the rest of the tick, and leaves mode INFO,
    screen NETWORK and both the cycle and the hold counter at zero. *)
Theorem release_in_info_resets (s : AppState) (i : TickInput) :
  is_pressed i = false -> btn_hold_ticks s > 0 -> mode s = INFO ->
  exists s',
    handle_input s i = ([GpioInput PIN_BUTTON], Ok s') /\
    power_actions (events (handle_input s i)) = [] /\
    power_actions (events (tick i s)) = [] /\
    mode s' = INFO /\ screen s' = NETWORK /\
    cycle_tick s' = 0 /\ btn_hold_ticks s' = 0.
Proof.
  intros Hp Hh Hm.
  pose proof (handle_input_release_info s i Hp Hh Hm) as E.
  eexists. split; [exact E|]. rewrite E.
  repeat split.
  unfold tick. rewrite E.
  set (s1 := set_btn_hold_ticks 0 _).
  rewrite events_bind, power_actions_app. cbn [events result fst snd].
  rewrite events_bind, power_actions_app, update_data_no_power.
  destruct (result (update_data s1 i)) as [s2 | c | e]; try reflexivity.
  rewrite events_bind, power_actions_app.
  destruct (draw_interface s2) as [l [s3 | c | e]] eqn:D;
    try (destruct (draw_interface_shape s2) as (b & Eb & _); congruence).
  apply draw_interface_frame in D. cbn [events result fst snd].
  destruct D as (_ & _ & _ & _ & _ & _ & _ & _ & -> & _). reflexivity.
Qed.

Lemma release_confirms_action_witness :
  let s := set_btn_hold_ticks 31 (set_mode REBOOT_WAIT AppState_default) in
  (is_pressed idle_input = false /\ btn_hold_ticks s > 0) /\
  power_actions (events (handle_input s idle_input)) = ["sudo reboot now"].
Proof.
  intros s. split; [split; reflexivity|].
  destruct (release_confirms_action s idle_input []) as [H _];
    [reflexivity | reflexivity |].
  apply H. reflexivity.
Defined.

Lemma release_in_info_resets_witness :
  let s := set_btn_hold_ticks 3 AppState_default in
  (is_pressed idle_input = false /\ btn_hold_ticks s > 0 /\ mode s = INFO) /\
  exists s',
    handle_input s idle_input = ([GpioInput PIN_BUTTON], Ok s') /\
    power_actions (events (handle_input s idle_input)) = [] /\
    power_actions (events (tick idle_input s)) = [] /\
    mode s' = INFO /\ screen s' = NETWORK /\
    cycle_tick s' = 0 /\ btn_hold_ticks s' = 0.
Proof.
  intros s. split; [repeat split|].
  apply (release_in_info_resets s idle_input); reflexivity.
Defined.

(** ** One tick, phase by phase *)

Lemma tick_Ok_inv (i : TickInput) (s : AppState) l s' :
  tick i s = (l, Ok s') ->
  exists l1 s1 l2 s2 l3,
    handle_input s i = (l1, Ok s1) /\ update_data s1 i = (l2, Ok s2) /\
    draw_interface s2 = (l3, Ok s') /\
    l = l1 ++ l2 ++ l3 ++ [Sleep LOOP_SPEED].
Proof.
  unfold tick. intros H.
  apply bind_Ok_inv in H as (l1 & s1 & r1 & H1 & H & ->).
  apply bind_Ok_inv in H as (l2 & s2 & r2 & H2 & H & ->).
  apply bind_Ok_inv in H as (l3 & s3 & r3 & H3 & H & ->).
  cbn in H. injection H as <- <-.
  exists l1, s1, l2, s2, l3. auto.
Qed.

Lemma tick_Ok_intro (i : TickInput) (s : AppState) l1 s1 l2 s2 l3 s3 :
  handle_input s i = (l1, Ok s1) -> update_data s1 i = (l2, Ok s2) ->
  draw_interface s2 = (l3, Ok s3) ->
  tick i s = (l1 ++ l2 ++ l3 ++ [Sleep LOOP_SPEED], Ok s3).
Proof.
  intros H1 H2 H3. unfold tick.
  rewrite (bind_Ok _ _ _ _ H1), (bind_Ok _ _ _ _ H2), (bind_Ok _ _ _ _ H3).
  reflexivity.
Qed.

Lemma draw_interface_total (s : AppState) :
  exists l s', draw_interface s = (l, Ok s').
Proof. destruct (draw_interface_shape s) as (b & E & _). eauto. Qed.

(** The Data Refresher completes whenever the [hostname] command does. *)
Lemma update_data_total (s : AppState) (i : TickInput) :
  hostname_out i <> None -> exists l s', update_data s i = (l, Ok s').
Proof.
  intros Hh. unfold update_data.
  destruct (_ || _); [unfold ret; eauto|].
  rewrite fetch_stats_cases, get_network_info_cases.
  destruct (_ >=? _); [| eauto].
  destruct (screen (cycle_screens s)); [| eauto].
  destruct (hostname_out i); [| congruence].
  destruct (hostname_I_out i); eauto.
Qed.

(** ** The Input Classifier while the button is down *)

Lemma handle_input_pressed (s : AppState) (i : TickInput) :
  is_pressed i = true ->
  exists s1,
    handle_input s i = ([GpioInput PIN_BUTTON], Ok s1) /\
    btn_hold_ticks s1 = btn_hold_ticks s + 1 /\
    display_timer s1 = SCREEN_TIMEOUT_TICKS /\
    mode s1 = (if btn_hold_ticks s + 1 >=? SHUTDOWN_HOLD_TICKS
               then SHUTDOWN_WAIT
               else if btn_hold_ticks s + 1 >=? REBOOT_HOLD_TICKS
                    then REBOOT_WAIT else mode s) /\
    screen s1 = screen s /\ stats_tick s1 = stats_tick s /\
    cycle_tick s1 = cycle_tick s.
Proof.
  intros Hp. unfold handle_input. rewrite Hp.
  cbn [btn_hold_ticks set_btn_hold_ticks set_display_timer].
  destruct (_ >=? SHUTDOWN_HOLD_TICKS); [eexists; repeat split|].
  destruct (_ >=? REBOOT_HOLD_TICKS); eexists; repeat split.
Qed.

Lemma tick_pressed (s : AppState) (i : TickInput) l s' :
  is_pressed i = true -> tick i s = (l, Ok s') ->
  btn_hold_ticks s' = btn_hold_ticks s + 1 /\
  mode s' = (if btn_hold_ticks s + 1 >=? SHUTDOWN_HOLD_TICKS
             then SHUTDOWN_WAIT
             else if btn_hold_ticks s + 1 >=? REBOOT_HOLD_TICKS
                  then REBOOT_WAIT else mode s).
Proof.
  intros Hp H.
  apply tick_Ok_inv in H as (l1 & s1 & l2 & s2 & l3 & H1 & H2 & H3 & _).
  destruct (handle_input_pressed s i Hp) as (s1' & E & Hh & _ & Hm & _).
  rewrite E in H1. injection H1 as _ <-.
  apply update_data_frame in H2 as (Hm2 & _ & Hh2).
  apply draw_interface_frame in H3 as (Hm3 & _ & Hh3 & _).
  split; congruence.
Qed.

Lemma tick_pressed_total (s : AppState) (i : TickInput) :
  is_pressed i = true -> hostname_out i <> None ->
  exists l s', tick i s = (l, Ok s').
Proof.
  intros Hp Hh.
  destruct (handle_input_pressed s i Hp) as (s1 & E1 & _).
  destruct (update_data_total s1 i Hh) as (l2 & s2 & E2).
  destruct (draw_interface_total s2) as (l3 & s3 & E3).
  rewrite (tick_Ok_intro _ _ _ _ _ _ _ _ E1 E2 E3). eauto.
Qed.

Lemma classified_tick_pressed (s : AppState) (i : TickInput) l s' :
  is_pressed i = true -> 0 <= btn_hold_ticks s -> classified s ->
  tick i s = (l, Ok s') -> classified s'.
Proof.
  intros Hp H0 (Hs & Hr & Hi) H.
  destruct (tick_pressed _ _ _ _ Hp H) as (Hh & Hm).
  unfold classified. rewrite Hh, Hm. clear H Hh Hm. consts.
  tests; repeat split; intros; try reflexivity; try lia.
  apply Hi. lia.
Qed.

Lemma main_loop_held (ins : list TickInput) : forall (s : AppState) l s',
  Forall (fun i => is_pressed i = true) ins ->
  0 <= btn_hold_ticks s -> classified s ->
  main_loop ins s = (l, Ok s') ->
  classified s' /\
  btn_hold_ticks s' = btn_hold_ticks s + Z.of_nat (List.length ins).
Proof.
  induction ins as [| i ins IH]; intros s l s' Hall H0 Hc H.
  - cbn in H. injection H as _ <-. split; [assumption | cbn; lia].
  - inversion Hall as [| ? ? Hp Hall']; subst.
    rewrite main_loop_cons in H.
    apply bind_Ok_inv in H as (l1 & s1 & l2 & H1 & H2 & _).
    destruct (tick_pressed _ _ _ _ Hp H1) as (Hh & _).
    apply IH in H2 as (Hc' & Hh'); try assumption; try lia.
    + split; [assumption|]. rewrite Hh', Hh. cbn [List.length]. lia.
    + eapply classified_tick_pressed; eauto.
Qed.

Lemma main_loop_held_total (ins : list TickInput) : forall (s : AppState),
  Forall (fun i => is_pressed i = true) ins ->
  Forall (fun i => hostname_out i <> None) ins ->
  exists l s', main_loop ins s = (l, Ok s').
Proof.
  induction ins as [| i ins IH]; intros s Hall Hhost.
  - cbn. unfold ret. eauto.
  - inversion Hall; inversion Hhost; subst.
    destruct (tick_pressed_total s i) as (l1 & s1 & E1); try assumption.
    destruct (IH s1) as (l2 & s2 & E2); try assumption.
    rewrite main_loop_cons, (bind_Ok _ _ _ _ E1), E2. cbn. eauto.
Qed.

(** C5: start from an idle state (mode INFO, hold counter 0) and keep the
    button down for [H] ticks.  Whenever the loop is still running after
    them, the mode is SHUTDOWN_WAIT if [H] has reached the shutdown
    threshold, else REBOOT_WAIT if [H] has reached the reboot threshold,
    else INFO; the shutdown test comes first, and the thresholds are 30
    and 60, so it decides from 60 on.  The loop is still running whenever
    the [hostname] command did not fail during these ticks. *)
Theorem hold_duration_classifies (ins : list TickInput) (s : AppState) :
  mode s = INFO -> btn_hold_ticks s = 0 ->
  Forall (fun i => is_pressed i = true) ins ->
  let H := Z.of_nat (List.length ins) in
  REBOOT_HOLD_TICKS < SHUTDOWN_HOLD_TICKS /\
  (forall l s', main_loop ins s = (l, Ok s') ->
     btn_hold_ticks s' = H /\
     (SHUTDOWN_HOLD_TICKS <= H -> mode s' = SHUTDOWN_WAIT) /\
     (REBOOT_HOLD_TICKS <= H < SHUTDOWN_HOLD_TICKS -> mode s' = REBOOT_WAIT) /\
     (H < REBOOT_HOLD_TICKS -> mode s' = INFO)) /\
  (Forall (fun i => hostname_out i <> None) ins ->
   exists l s', main_loop ins s = (l, Ok s')).
Proof.
  intros Hm Hh Hall H. split; [consts; lia|]. split.
  - intros l s' E.
    apply main_loop_held in E as (Hc & Hh'); try assumption; try lia.
    + rewrite Hh in Hh'. cbn in Hh'. fold H in Hh'.
      unfold classified in Hc. rewrite Hh' in Hc. tauto.
    + unfold classified. rewrite Hm, Hh. consts.
      repeat split; intros; try reflexivity; lia.
  - intros Hhost. apply main_loop_held_total; assumption.
Qed.

Lemma hold_duration_classifies_witness :
  (mode AppState_default = INFO /\ btn_hold_ticks AppState_default = 0 /\
   Forall (fun i => is_pressed i = true) (repeat pressed_input 30)) /\
  exists l s',
    main_loop (repeat pressed_input 30) AppState_default = (l, Ok s') /\
    btn_hold_ticks s' = 30 /\ mode s' = REBOOT_WAIT.
Proof.
  assert (Hall : Forall (fun i => is_pressed i = true) (repeat pressed_input 30)).
  { apply Forall_forall. intros x Hx. apply repeat_spec in Hx. subst x.
    reflexivity. }
  assert (Hhost : Forall (fun i => hostname_out i <> None)
                    (repeat pressed_input 30)).
  { apply Forall_forall. intros x Hx. apply repeat_spec in Hx. subst x.
    discriminate. }
  split; [repeat split; assumption|].
  destruct (hold_duration_classifies (repeat pressed_input 30) AppState_default)
    as (_ & Hc & Htot); try reflexivity; try assumption.
  destruct (Htot Hhost) as (l & s' & E). exists l, s'.
  destruct (Hc l s' E) as (Hh & _ & Hr & _).
  split; [assumption|]. split; [assumption|].
  apply Hr. rewrite repeat_length. consts. lia.
Defined.

(** ** Invariants of the reachable states *)

Lemma main_loop_reachable (ins : list TickInput) : forall (s : AppState) l s',
  reachable s -> main_loop ins s = (l, Ok s') -> reachable s'.
Proof.
  induction ins as [| i ins IH]; intros s l s' Hr H.
  - cbn in H. injection H as _ <-. assumption.
  - rewrite main_loop_cons in H.
    apply bind_Ok_inv in H as (l1 & s1 & l2 & H1 & H2 & _).
    eapply IH; [| exact H2]. eapply reachable_tick; eauto.
Qed.

Lemma asleep_state_reachable : reachable asleep_state.
Proof.
  apply (main_loop_reachable (repeat idle_input 150) AppState_default
           (events (main_loop (repeat idle_input 150) AppState_default)));
    [constructor|].
  vm_compute. reflexivity.
Qed.

Lemma cycle_due_state_reachable : reachable cycle_due_state.
Proof.
  apply (main_loop_reachable (repeat idle_input 20) AppState_default
           (events (main_loop (repeat idle_input 20) AppState_default)));
    [constructor|].
  vm_compute. reflexivity.
Qed.

(** What [handle_input] does to the timer and the counters when it
    returns. *)
Lemma handle_input_frame (s : AppState) (i : TickInput) l s1 :
  handle_input s i = (l, Ok s1) ->
  display_timer s1 = (if is_pressed i then SCREEN_TIMEOUT_TICKS
                      else display_timer s) /\
  stats_tick s1 = stats_tick s /\
  (cycle_tick s1 = cycle_tick s \/ cycle_tick s1 = 0) /\
  l = [GpioInput PIN_BUTTON].
Proof.
  unfold handle_input. destruct (is_pressed i).
  - cbn [btn_hold_ticks set_btn_hold_ticks set_display_timer].
    destruct (_ >=? SHUTDOWN_HOLD_TICKS); [intros [= <- <-]; auto|].
    destruct (_ >=? REBOOT_HOLD_TICKS); intros [= <- <-]; auto.
  - destruct (_ >? 0); [| intros [= <- <-]; auto].
    destruct (mode s); cbn; intros [= <- <-]; auto.
Qed.

Lemma update_data_counters (s : AppState) (i : TickInput) l s2 :
  update_data s i = (l, Ok s2) ->
  cycle_tick s <= INFO_CYCLE_TICKS -> stats_tick s <= STATS_UPDATE_TICKS ->
  cycle_tick s2 <= INFO_CYCLE_TICKS /\ stats_tick s2 <= STATS_UPDATE_TICKS.
Proof.
  unfold update_data.
  destruct (_ || _); [intros [= <- <-]; auto|].
  rewrite fetch_stats_cases, get_network_info_cases. unfold cycle_screens.
  intros H Hc Hs. consts. revert H.
  destruct (Z.geb_spec (cycle_tick s) 20);
    cbn [stats_tick screen cycle_tick set_screen set_stats_tick set_cycle_tick];
    consts; tests; try destruct (InfoScreen_eqb (screen s) NETWORK);
    try destruct (screen s);
    try destruct (hostname_out i); try destruct (hostname_I_out i);
    intros [= <- <-]; cbn; lia.
Qed.

(** C10: between any two ticks of a run from the initial state, the cycle
    counter is at most the cycle period and the statistics counter at most
    its trigger value. *)
Theorem counters_bounded (s : AppState) :
  reachable s ->
  cycle_tick s <= INFO_CYCLE_TICKS /\ stats_tick s <= STATS_UPDATE_TICKS.
Proof.
  induction 1 as [| s i l s' Hr [IHc IHs] Ht].
  - cbn. consts. lia.
  - apply tick_Ok_inv in Ht as (l1 & s1 & l2 & s2 & l3 & H1 & H2 & H3 & _).
    apply handle_input_frame in H1 as (_ & Hs1 & Hc1 & _).
    apply draw_interface_frame in H3 as (_ & _ & _ & Hs3 & Hc3 & _).
    rewrite Hs3, Hc3.
    apply (update_data_counters _ _ _ _ H2).
    + destruct Hc1 as [-> | ->]; [assumption | consts; lia].
    + rewrite Hs1. assumption.
Qed.

Lemma counters_bounded_witness :
  reachable cycle_due_state /\
  cycle_tick cycle_due_state <= INFO_CYCLE_TICKS /\
  stats_tick cycle_due_state <= STATS_UPDATE_TICKS.
Proof.
  split; [exact cycle_due_state_reachable|].
  apply (counters_bounded cycle_due_state). exact cycle_due_state_reachable.
Defined.

(** ** The display timer and the Renderer *)

(** The timer in one full tick: a press puts it at its maximum before the
    Renderer runs, and the Renderer takes one off when it is positive. *)
Lemma tick_display_timer (i : TickInput) (s : AppState) l s' :
  tick i s = (l, Ok s') ->
  let t := if is_pressed i then SCREEN_TIMEOUT_TICKS else display_timer s in
  display_timer s' = (if t >? 0 then t - 1 else t) /\
  exists l0, l = l0 ++ [DispImage; DispShow; Sleep LOOP_SPEED].
Proof.
  intros Ht t.
  apply tick_Ok_inv in Ht as (l1 & s1 & l2 & s2 & l3 & H1 & H2 & H3 & ->).
  apply handle_input_frame in H1 as (Hd1 & _).
  apply update_data_frame in H2 as (_ & Hd2 & _).
  destruct (draw_interface_shape s2) as (body & E & _).
  rewrite E in H3. injection H3 as <- <-.
  assert (Ht2 : display_timer s2 = t) by (unfold t; congruence).
  rewrite <- Ht2. split.
  - destruct (display_timer s2 >? 0); reflexivity.
  - exists (l1 ++ l2 ++ DrawRectangle 0 0 WIDTH HEIGHT :: body).
    rewrite <- !app_assoc. cbn. rewrite <- app_assoc. reflexivity.
Qed.

Lemma display_timer_range (s : AppState) :
  reachable s -> 0 <= display_timer s <= SCREEN_TIMEOUT_TICKS.
Proof.
  induction 1 as [| s i l s' Hr IH Ht].
  - cbn. consts. lia.
  - apply tick_display_timer in Ht as (Hd & _). rewrite Hd. consts.
    destruct (is_pressed i); tests; lia.
Qed.

(** C8, as the code has it.  In every reachable state the display timer is
    not negative.  The Renderer takes exactly one off the timer if and only
    if the timer is positive when the Renderer starts, whatever the mode and
    screen; this is the value after the Input Classifier, which puts the
    timer at its maximum on a press, so over a whole tick the timer goes
    from [t] to [t - 1] where [t] is the maximum on a press and the value at
    tick start otherwise.  Every tick that reaches the Renderer clears the
    buffer and hands the frame to the display, and the frame is blank when
    the timer is zero. *)
Theorem renderer_display_timer (s : AppState) :
  (reachable s -> 0 <= display_timer s) /\
  (exists body s',
     draw_interface s
     = (DrawRectangle 0 0 WIDTH HEIGHT :: body ++ [DispImage; DispShow], Ok s') /\
     (display_timer s' = display_timer s - 1 <-> 0 < display_timer s) /\
     (display_timer s <= 0 -> s' = s /\ body = []) /\
     mode s' = mode s /\ screen s' = screen s) /\
  (forall i l s', tick i s = (l, Ok s') ->
     let t := if is_pressed i then SCREEN_TIMEOUT_TICKS else display_timer s in
     (0 < t -> display_timer s' = t - 1) /\
     (t <= 0 -> display_timer s' = t) /\
     exists l0, l = l0 ++ [DispImage; DispShow; Sleep LOOP_SPEED]).
Proof.
  split; [| split].
  - intros Hr. apply display_timer_range in Hr. lia.
  - destruct (draw_interface_shape s) as (body & E & Hblank & _).
    exists body. eexists. split; [exact E|].
    destruct (Z.gtb_spec (display_timer s) 0) as [Hpos | Hle];
      cbn [display_timer set_display_timer mode screen set_display_timer].
    + repeat split; intros; try reflexivity; lia.
    + repeat split; intros; try reflexivity; try lia; auto.
  - intros i l s' Ht. apply tick_display_timer in Ht as (Hd & Hl).
    cbn zeta. rewrite Hd.
    destruct (Z.gtb_spec (if is_pressed i then SCREEN_TIMEOUT_TICKS
                          else display_timer s) 0);
      repeat split; intros; try lia; assumption.
Qed.

Lemma renderer_display_timer_witness :
  reachable asleep_state /\ 0 <= display_timer asleep_state.
Proof.
  split; [exact asleep_state_reachable|].
  apply (renderer_display_timer asleep_state). exact asleep_state_reachable.
Defined.

(** C8 as written fails on a wake-up tick: the reachable state
    [asleep_state] has the timer at 0 at the start of the tick, the button
    is down, and the Renderer of that tick still takes one off the timer
    (150 to 149). *)
Lemma renderer_decrements_on_wake :
  reachable asleep_state /\
  ~ display_timer asleep_state > 0 /\
  exists l1 s1 l2 s2 l3 s3,
    handle_input asleep_state pressed_input = (l1, Ok s1) /\
    update_data s1 pressed_input = (l2, Ok s2) /\
    draw_interface s2 = (l3, Ok s3) /\
    display_timer s2 = 150 /\ display_timer s3 = 149 /\
    display_timer s3 = display_timer s2 - 1 /\
    result (tick pressed_input asleep_state) = Ok s3.
Proof.
  split; [exact asleep_state_reachable|]. split; [cbn; lia|].
  do 6 eexists.
  split; [vm_compute; reflexivity|].
  split; [vm_compute; reflexivity|].
  split; [vm_compute; reflexivity|].
  repeat split.
Qed.

(** ** Failures of the network lookup *)

(** C2, as the code has it: when the [hostname] command succeeds, a failure
    of the IP lookup is caught inside [get_network_info] and only the ip is
    replaced, by "No IP"; the hostname is the one read.  The fetch then
    returns a pair, and the refresh step completes. *)
Theorem ip_lookup_failure_caught (i : TickInput) (h : string) :
  hostname_out i = Some h ->
  (exists ip,
     get_network_info i
     = ([CheckOutput "hostname"; CheckOutput "hostname -I | cut -d' ' -f1"],
        Ok (Py.strip h, ip)) /\
     (hostname_I_out i = None -> ip = "No IP") /\
     (forall a, hostname_I_out i = Some a -> ip = Py.strip a)) /\
  (forall s, exists l s', update_data s i = (l, Ok s')).
Proof.
  intros Hh. split.
  - rewrite get_network_info_cases, Hh.
    destruct (hostname_I_out i) as [a |]; eexists; split; try reflexivity;
      split; intros; congruence.
  - intros s. apply update_data_total. congruence.
Qed.

Lemma ip_lookup_failure_caught_witness :
  hostname_out no_ip_input = Some ("node1" ++ nl)%string /\
  get_network_info no_ip_input
  = ([CheckOutput "hostname"; CheckOutput "hostname -I | cut -d' ' -f1"],
     Ok ("node1", "No IP")).
Proof.
  split; [reflexivity|].
  destruct (ip_lookup_failure_caught no_ip_input ("node1" ++ nl)%string)
    as [(ip & E & Hnone & _) _]; [reflexivity|].
  rewrite E, (Hnone eq_refl). reflexivity.
Defined.

(** C2 as written fails twice.  When the IP lookup fails the pair is not a
    placeholder pair: it holds the hostname that was read.  When the
    [hostname] command fails nothing catches it: the fetch, the refresh step
    and the loop all end with that failure (the first tick refreshes the
    network data). *)
Lemma network_lookup_failures :
  result (get_network_info no_ip_input) = Ok ("node1", "No IP") /\
  result (get_network_info no_hostname_input) = Raised "hostname" /\
  result (update_data AppState_default no_hostname_input) = Raised "hostname" /\
  result (tick no_hostname_input AppState_default) = Raised "hostname" /\
  result (main [no_hostname_input]) = Raised "hostname".
Proof. repeat split; vm_compute; reflexivity. Qed.

(** ** Screen cycling and the forced refresh *)

Lemma InfoScreen_toggle_neq (sc : InfoScreen) :
  (if InfoScreen_eqb sc NETWORK then PERFORMANCE else NETWORK) <> sc.
Proof. destruct sc; discriminate. Qed.

Lemma update_data_active (s : AppState) (i : TickInput) :
  mode s = INFO -> 0 < display_timer s ->
  update_data s i = fetch_stats (cycle_screens s) i.
Proof.
  intros Hm Hd. unfold update_data. rewrite Hm.
  destruct (Z.leb_spec (display_timer s) 0); [lia | reflexivity].
Qed.

(** With both counters below their trigger values the Data Refresher calls
    no provider. *)
Lemma update_data_quiet (s : AppState) (i : TickInput) :
  cycle_tick s < INFO_CYCLE_TICKS -> stats_tick s < STATS_UPDATE_TICKS ->
  exists s', update_data s i = ([], Ok s').
Proof.
  intros Hc Hs. unfold update_data.
  destruct (_ || _); [unfold ret; eauto|].
  rewrite fetch_stats_cases. unfold cycle_screens.
  destruct (Z.geb_spec (cycle_tick s) INFO_CYCLE_TICKS); [lia|].
  cbn [stats_tick set_cycle_tick].
  destruct (Z.geb_spec (stats_tick s) STATS_UPDATE_TICKS); [lia | eauto].
Qed.

Lemma handle_input_in_info (s : AppState) (i : TickInput) :
  mode s = INFO ->
  exists s1,
    handle_input s i = ([GpioInput PIN_BUTTON], Ok s1) /\
    stats_tick s1 = stats_tick s /\
    (cycle_tick s1 = cycle_tick s \/ cycle_tick s1 = 0).
Proof.
  intros Hm. unfold handle_input. rewrite Hm. destruct (is_pressed i).
  - cbn [btn_hold_ticks set_btn_hold_ticks set_display_timer].
    destruct (_ >=? SHUTDOWN_HOLD_TICKS); [eexists; repeat split; auto|].
    destruct (_ >=? REBOOT_HOLD_TICKS); eexists; repeat split; auto.
  - destruct (_ >? 0); eexists; repeat split; auto.
Qed.

(** A tick that starts in INFO with both counters at zero calls no
    provider. *)
Lemma tick_after_refresh_quiet (s : AppState) (i : TickInput) :
  mode s = INFO -> cycle_tick s = 0 -> stats_tick s = 0 ->
  fetch_calls (events (tick i s)) = [].
Proof.
  intros Hm Hc Hs.
  destruct (handle_input_in_info s i Hm) as (s1 & E1 & Hs1 & Hc1).
  destruct (update_data_quiet s1 i) as (s2 & E2).
  { consts. destruct Hc1 as [-> | ->]; lia. }
  { consts. lia. }
  destruct (draw_interface_total s2) as (l3 & s3 & E3).
  rewrite (tick_Ok_intro _ _ _ _ _ _ _ _ E1 E2 E3).
  apply draw_interface_frame in E3 as (_ & _ & _ & _ & _ & _ & _ & _ & _ & Hf).
  cbn [events fst]. rewrite !fetch_calls_app, Hf. reflexivity.
Qed.

Lemma provider_calls_nonempty (sc : InfoScreen) (i : TickInput) :
  provider_calls sc i <> [].
Proof.
  destruct sc; cbn [provider_calls]; [| discriminate].
  rewrite get_network_info_cases.
  destruct (hostname_out i); try destruct (hostname_I_out i); discriminate.
Qed.

Lemma fetch_stats_due (s : AppState) (i : TickInput) :
  stats_tick s = STATS_UPDATE_TICKS ->
  events (fetch_stats s i) = provider_calls (screen s) i /\
  (forall l s', fetch_stats s i = (l, Ok s') ->
     screen s' = screen s /\ stats_tick s' = 0 /\ cycle_tick s' = cycle_tick s /\
     mode s' = mode s /\
     (screen s = NETWORK ->
      result (get_network_info i) = Ok (cache_net s')) /\
     (screen s = PERFORMANCE ->
      cache_perf s' = (cpu_percent i, mem_percent i, disk_percent i))) /\
  (hostname_out i <> None \/ screen s = PERFORMANCE ->
   exists l s', fetch_stats s i = (l, Ok s')).
Proof.
  intros Hs. rewrite fetch_stats_cases, Hs.
  destruct (Z.geb_spec STATS_UPDATE_TICKS STATS_UPDATE_TICKS); [| lia].
  destruct (screen s) eqn:Esc; cbn [provider_calls].
  - rewrite get_network_info_cases.
    destruct (hostname_out i) as [h |]; [destruct (hostname_I_out i) as [a |]|].
    + split; [reflexivity|]. split; [| eauto].
      intros l s' [= <- <-].
      repeat split; intros; cbn; try reflexivity; congruence.
    + split; [reflexivity|]. split; [| eauto].
      intros l s' [= <- <-].
      repeat split; intros; cbn; try reflexivity; congruence.
    + split; [reflexivity|]. split; [discriminate|].
      intros [Hh | Hp]; [congruence | discriminate].
  - split; [reflexivity|]. split; [| eauto].
    intros l s' [= <- <-].
      repeat split; intros; cbn; try reflexivity; congruence.
Qed.

(** C1, as the code has it.  In a run of the Data Refresher that toggles
    the screen (mode INFO, timer positive, cycle counter at the cycle
    period or above), the toggle puts the statistics counter at its trigger
    value and the cycle counter at 0, and the refresh of the newly active
    screen happens in that same run: the providers of the new screen are
    the calls of this run, their answer goes into the matching cache and
    the statistics counter is back at 0 when the run returns.  The tick
    that follows calls no provider. *)
Theorem toggle_refreshes_in_same_tick (s : AppState) (i : TickInput) :
  mode s = INFO -> 0 < display_timer s -> INFO_CYCLE_TICKS <= cycle_tick s ->
  let new := if InfoScreen_eqb (screen s) NETWORK
             then PERFORMANCE else NETWORK in
  (screen (cycle_screens s) = new /\ new <> screen s /\
   cycle_tick (cycle_screens s) = 0 /\
   stats_tick (cycle_screens s) = STATS_UPDATE_TICKS) /\
  (update_data s i = fetch_stats (cycle_screens s) i /\
   events (update_data s i) = provider_calls new i /\
   provider_calls new i <> []) /\
  (forall l s2, update_data s i = (l, Ok s2) ->
     screen s2 = new /\ stats_tick s2 = 0 /\ cycle_tick s2 = 0 /\
     (new = NETWORK -> result (get_network_info i) = Ok (cache_net s2)) /\
     (new = PERFORMANCE ->
      cache_perf s2 = (cpu_percent i, mem_percent i, disk_percent i)) /\
     forall l3 s3 i', draw_interface s2 = (l3, Ok s3) ->
       fetch_calls (events (tick i' s3)) = []) /\
  (hostname_out i <> None \/ new = PERFORMANCE ->
   exists l s2, update_data s i = (l, Ok s2)).
Proof.
  intros Hm Hd Hc new.
  assert (Hcyc : screen (cycle_screens s) = new /\
                 cycle_tick (cycle_screens s) = 0 /\
                 stats_tick (cycle_screens s) = STATS_UPDATE_TICKS /\
                 mode (cycle_screens s) = INFO).
  { unfold cycle_screens.
    destruct (Z.geb_spec (cycle_tick s) INFO_CYCLE_TICKS); [| lia].
    cbn. auto. }
  destruct Hcyc as (Hscr & Hcyc & Hst & Hmode).
  destruct (fetch_stats_due (cycle_screens s) i Hst) as (Hev & Hok & Htot).
  rewrite Hscr in Hev, Hok, Htot.
  rewrite (update_data_active s i Hm Hd).
  split; [| split; [| split]].
  - repeat split; try assumption. apply InfoScreen_toggle_neq.
  - repeat split; try assumption. apply provider_calls_nonempty.
  - intros l s2 E.
    destruct (Hok l s2 E) as (H1 & H2 & H3 & H4 & H5 & H6).
    repeat split; try assumption; try congruence.
    intros l3 s3 i' D.
    apply draw_interface_frame in D as (Dm & _ & _ & Ds & Dc & _).
    apply tick_after_refresh_quiet; congruence.
  - assumption.
Qed.

Lemma toggle_refreshes_in_same_tick_witness :
  (mode cycle_due_state = INFO /\ 0 < display_timer cycle_due_state /\
   INFO_CYCLE_TICKS <= cycle_tick cycle_due_state) /\
  events (update_data cycle_due_state idle_input)
  = provider_calls PERFORMANCE idle_input.
Proof.
  assert (H : INFO_CYCLE_TICKS <= cycle_tick cycle_due_state)
    by (rewrite INFO_CYCLE_TICKS_eq; cbn; lia).
  split; [repeat split; assumption|].
  apply (toggle_refreshes_in_same_tick cycle_due_state idle_input);
    [reflexivity | reflexivity | assumption].
Defined.

(** C1 as written fails: in the reachable state [cycle_due_state] a quiet
    tick toggles the screen to PERFORMANCE and reads the performance data in
    that same tick; the tick after it calls no provider. *)
Lemma refresh_is_on_toggle_tick :
  reachable cycle_due_state /\
  mode cycle_due_state = INFO /\ 0 < display_timer cycle_due_state /\
  INFO_CYCLE_TICKS <= cycle_tick cycle_due_state /\
  exists l1 s1 l2 s2,
    tick idle_input cycle_due_state = (l1, Ok s1) /\
    screen cycle_due_state = NETWORK /\ screen s1 = PERFORMANCE /\
    fetch_calls l1 = [CpuPercent; VirtualMemory; DiskUsage "/"] /\
    tick idle_input s1 = (l2, Ok s2) /\
    fetch_calls l2 = [].
Proof.
  split; [exact cycle_due_state_reachable|].
  split; [reflexivity|]. split; [reflexivity|].
  split; [rewrite INFO_CYCLE_TICKS_eq; cbn; lia|].
  do 4 eexists.
  split; [vm_compute; reflexivity|].
  split; [reflexivity|]. split; [reflexivity|].
  split; [reflexivity|].
  split; [vm_compute; reflexivity|].
  reflexivity.
Qed.

(** ** The period of the screen cycle *)

Lemma handle_input_idle (s : AppState) (i : TickInput) :
  is_pressed i = false -> btn_hold_ticks s = 0 ->
  handle_input s i = ([GpioInput PIN_BUTTON], Ok s).
Proof.
  intros Hp Hh. unfold handle_input. rewrite Hp, Hh. reflexivity.
Qed.

Lemma fetch_stats_frame (s : AppState) (i : TickInput) l s' :
  fetch_stats s i = (l, Ok s') ->
  screen s' = screen s /\ cycle_tick s' = cycle_tick s.
Proof.
  rewrite fetch_stats_cases, get_network_info_cases.
  destruct (_ >=? _); [| intros [= <- <-]; auto].
  destruct (screen s) eqn:Esc; [| intros [= <- <-]; auto].
  destruct (hostname_out i); try destruct (hostname_I_out i);
    intros [= <- <-]; auto.
Qed.

(** A quiet tick in INFO with the display awake: the timer loses one, and
    the screen and the cycle counter are those [cycle_screens] gives. *)
Lemma quiet_tick (s : AppState) (i : TickInput) :
  is_pressed i = false -> hostname_out i <> None ->
  mode s = INFO -> btn_hold_ticks s = 0 -> 0 < display_timer s ->
  exists l s',
    tick i s = (l, Ok s') /\
    mode s' = INFO /\ btn_hold_ticks s' = 0 /\
    display_timer s' = display_timer s - 1 /\
    screen s' = screen (cycle_screens s) /\
    cycle_tick s' = cycle_tick (cycle_screens s).
Proof.
  intros Hp Hhost Hm Hh Hd.
  pose proof (handle_input_idle s i Hp Hh) as E1.
  destruct (update_data_total s i Hhost) as (l2 & s2 & E2).
  destruct (draw_interface_total s2) as (l3 & s3 & E3).
  exists (([GpioInput PIN_BUTTON] ++ l2 ++ l3 ++ [Sleep LOOP_SPEED])), s3.
  split; [apply (tick_Ok_intro _ _ _ _ _ _ _ _ E1 E2 E3)|].
  pose proof (update_data_frame _ _ _ _ E2) as (Hm2 & Hd2 & Hh2).
  rewrite (update_data_active s i Hm Hd) in E2.
  apply fetch_stats_frame in E2 as (Hs2 & Hc2).
  apply draw_interface_frame in E3
    as (Hm3 & Hs3 & Hh3 & _ & Hc3 & _ & _ & Hd3 & _).
  rewrite Hd3, Hd2.
  destruct (Z.gtb_spec (display_timer s) 0); [| lia].
  repeat split; congruence.
Qed.

Lemma toggle_ticks_cons (n : Z) (i : TickInput) (rest : list TickInput)
  (s : AppState) l s' :
  tick i s = (l, Ok s') ->
  toggle_ticks n (i :: rest) s
  = (if InfoScreen_eqb (screen s) (screen s') then [] else [n + 1])
      ++ toggle_ticks (n + 1) rest s'.
Proof. intros E. cbn [toggle_ticks]. rewrite E. reflexivity. Qed.

(** Starting with the cycle counter at [c], the next [n] quiet ticks do not
    toggle the screen as long as [c + n] stays within the cycle period. *)
Lemma no_toggle_within_period (ins : list TickInput) :
  forall (s : AppState) (n : Z),
  Forall quiet ins ->
  mode s = INFO -> btn_hold_ticks s = 0 ->
  cycle_tick s + Z.of_nat (List.length ins) <= INFO_CYCLE_TICKS ->
  Z.of_nat (List.length ins) <= display_timer s ->
  exists l s',
    main_loop ins s = (l, Ok s') /\
    toggle_ticks n ins s = [] /\
    screen s' = screen s /\
    cycle_tick s' = cycle_tick s + Z.of_nat (List.length ins) /\
    mode s' = INFO /\ btn_hold_ticks s' = 0 /\
    display_timer s' = display_timer s - Z.of_nat (List.length ins).
Proof.
  induction ins as [| i ins IH]; intros s n Hq Hm Hh Hc Hd.
  - exists [], s. cbn [List.length main_loop toggle_ticks].
    repeat split; try assumption; lia.
  - inversion Hq as [| ? ? [Hp Hhost] Hq']; subst.
    cbn [List.length] in Hc, Hd. rewrite Nat2Z.inj_succ in Hc, Hd.
    destruct (quiet_tick s i Hp Hhost Hm Hh) as
      (l1 & s1 & E1 & Hm1 & Hh1 & Hd1 & Hs1 & Hc1); [lia|].
    unfold cycle_screens in Hs1, Hc1.
    destruct (Z.geb_spec (cycle_tick s) INFO_CYCLE_TICKS); [lia|].
    cbn in Hs1, Hc1.
    destruct (IH s1 (n + 1) Hq' Hm1 Hh1) as
      (l2 & s2 & E2 & Ht2 & Hs2 & Hc2 & Hm2 & Hh2 & Hd2); try lia.
    exists (l1 ++ l2), s2.
    rewrite main_loop_cons, (bind_Ok _ _ _ _ E1), E2.
    rewrite (toggle_ticks_cons _ _ _ _ _ _ E1), Ht2, Hs1.
    cbn [List.length]. rewrite Nat2Z.inj_succ.
    repeat split; try congruence; try lia.
    destruct (screen s); reflexivity.
Qed.

Lemma toggle_ticks_app (a b : list TickInput) : forall (n : Z) (s : AppState),
  toggle_ticks n (a ++ b) s
  = toggle_ticks n a s
      ++ match result (main_loop a s) with
         | Ok s' => toggle_ticks (n + Z.of_nat (List.length a)) b s'
         | _ => []
         end.
Proof.
  induction a as [| i a IH]; intros n s.
  - cbn. rewrite Z.add_0_r. reflexivity.
  - rewrite main_loop_cons, result_bind. cbn [app toggle_ticks].
    destruct (tick i s) as [l [s1 | c | e]]; cbn [result snd];
      try reflexivity.
    rewrite IH, <- app_assoc. cbn [List.length]. rewrite Nat2Z.inj_succ.
    replace (n + 1 + Z.of_nat (List.length a))
      with (n + Z.succ (Z.of_nat (List.length a))) by lia.
    reflexivity.
Qed.

(** From a state whose cycle counter is 0 (the start, or just after a
    toggle or a tap), quiet ticks in INFO with the display awake toggle the
    screen for the first time on tick [INFO_CYCLE_TICKS + 1]: none of the
    first [INFO_CYCLE_TICKS] ticks toggles. *)
Lemma first_toggle_after_period_plus_one (ins : list TickInput)
  (i : TickInput) (s : AppState) :
  Forall quiet ins -> quiet i ->
  mode s = INFO -> btn_hold_ticks s = 0 -> cycle_tick s = 0 ->
  Z.of_nat (List.length ins) = INFO_CYCLE_TICKS ->
  INFO_CYCLE_TICKS < display_timer s ->
  toggle_ticks 0 ins s = [] /\
  toggle_ticks 0 (ins ++ [i]) s = [INFO_CYCLE_TICKS + 1].
Proof.
  intros Hq [Hp Hhost] Hm Hh Hc Hlen Hd.
  destruct (no_toggle_within_period ins s 0 Hq Hm Hh) as
    (l & s1 & E & Ht & Hs1 & Hc1 & Hm1 & Hh1 & Hd1); try lia.
  split; [assumption|].
  rewrite toggle_ticks_app, Ht, E. cbn [result snd app].
  destruct (quiet_tick s1 i Hp Hhost Hm1 Hh1) as
    (l2 & s2 & E2 & _ & _ & _ & Hs2 & _); [lia|].
  rewrite (toggle_ticks_cons _ _ _ _ _ _ E2), Hs2. unfold cycle_screens.
  destruct (Z.geb_spec (cycle_tick s1) INFO_CYCLE_TICKS); [| lia].
  cbn. rewrite Hlen.
  destruct (screen s1); reflexivity.
Qed.

(** C4 on the running program: from the initial state, 42 quiet ticks
    (mode INFO and the display awake throughout) toggle the screen on ticks
    21 and 42 only, one toggle every [INFO_CYCLE_TICKS + 1] ticks, while the
    cycle period is 20 ticks. *)
Theorem screen_toggles_every_21_ticks :
  INFO_CYCLE_TICKS = 20 /\
  Forall (fun i => is_pressed i = false) (repeat idle_input 42) /\
  toggle_ticks 0 (repeat idle_input 20) AppState_default = [] /\
  toggle_ticks 0 (repeat idle_input 42) AppState_default = [21; 42] /\
  exists l s',
    main_loop (repeat idle_input 42) AppState_default = (l, Ok s') /\
    mode s' = INFO /\ 0 < display_timer s'.
Proof.
  split; [exact INFO_CYCLE_TICKS_eq|].
  split; [apply Forall_forall; intros x Hx; apply repeat_spec in Hx;
          subst x; reflexivity|].
  split; [vm_compute; reflexivity|].
  split; [vm_compute; reflexivity|].
  do 2 eexists. split; [vm_compute; reflexivity|].
  split; reflexivity.
Qed.

(** * Further properties of the loop *)

(** ** A tick, whatever its outcome *)

Lemma tick_cases (i : TickInput) (s : AppState) :
  tick i s =
  match handle_input s i with
  | (l1, Ok s1) =>
      match update_data s1 i with
      | (l2, Ok s2) =>
          match draw_interface s2 with
          | (l3, Ok s3) => (l1 ++ l2 ++ l3 ++ [Sleep LOOP_SPEED], Ok s3)
          | (l3, Exited c) => (l1 ++ l2 ++ l3, Exited c)
          | (l3, Raised e) => (l1 ++ l2 ++ l3, Raised e)
          end
      | (l2, Exited c) => (l1 ++ l2, Exited c)
      | (l2, Raised e) => (l1 ++ l2, Raised e)
      end
  | (l1, Exited c) => (l1, Exited c)
  | (l1, Raised e) => (l1, Raised e)
  end.
Proof.
  unfold tick.
  destruct (handle_input s i) as [l1 [s1 | c | e]]; try reflexivity.
  cbn [bind].
  destruct (update_data s1 i) as [l2 [s2 | c | e]]; try reflexivity.
  cbn [bind].
  destruct (draw_interface s2) as [l3 [s3 | c | e]]; reflexivity.
Qed.

Lemma handle_input_not_held (s : AppState) (i : TickInput) :
  is_pressed i = false -> btn_hold_ticks s <= 0 ->
  handle_input s i = ([GpioInput PIN_BUTTON], Ok s).
Proof.
  intros Hp Hh. unfold handle_input. rewrite Hp.
  destruct (Z.gtb_spec (btn_hold_ticks s) 0); [lia | reflexivity].
Qed.

(** The Data Refresher never exits, and fails only with the [hostname]
    command. *)
Lemma update_data_outcome (s : AppState) (i : TickInput) :
  (exists s', result (update_data s i) = Ok s') \/
  (result (update_data s i) = Raised "hostname" /\ hostname_out i = None).
Proof.
  unfold update_data.
  destruct (_ || _); [left; unfold ret; cbn; eauto|].
  rewrite fetch_stats_cases, get_network_info_cases.
  destruct (_ >=? _); [| left; cbn; eauto].
  destruct (screen (cycle_screens s)); [| left; cbn; eauto].
  destruct (hostname_out i); try destruct (hostname_I_out i);
    cbn; eauto.
Qed.

(** Commands and exits of a tick are those of its first phase. *)
Lemma tick_power_actions (i : TickInput) (s : AppState) :
  power_actions (events (tick i s))
  = power_actions (events (handle_input s i)).
Proof.
  rewrite tick_cases.
  destruct (handle_input s i) as [l1 [s1 | c | e]]; try reflexivity.
  pose proof (update_data_no_power s1 i) as Hu.
  destruct (update_data s1 i) as [l2 [s2 | c | e]]; cbn [events fst] in *;
    rewrite ?power_actions_app, ?Hu, ?app_nil_r; try reflexivity.
  destruct (draw_interface s2) as [l3 [s3 | c | e]] eqn:D;
    try (destruct (draw_interface_shape s2) as (b & Eb & _); congruence).
  apply draw_interface_frame in D as (_ & _ & _ & _ & _ & _ & _ & _ & Hp & _).
  cbn [events fst]. rewrite !power_actions_app, Hu, Hp. cbn.
  rewrite app_nil_r. reflexivity.
Qed.

Lemma tick_exits (i : TickInput) (s : AppState) (c : Z) :
  result (tick i s) = Exited c <-> result (handle_input s i) = Exited c.
Proof.
  rewrite tick_cases.
  destruct (handle_input s i) as [l1 [s1 | c1 | e]]; cbn [result snd];
    try tauto.
  destruct (update_data_outcome s1 i) as [(s2 & Hu) | (Hu & _)];
    destruct (update_data s1 i) as [l2 r2]; cbn [result snd] in Hu; subst r2.
  - destruct (draw_interface_total s2) as (l3 & s3 & ->). cbn.
    split; discriminate.
  - cbn. split; discriminate.
Qed.

Ltac break_hyps :=
  repeat match goal with
  | H : _ /\ _ |- _ => destruct H
  | H : exists _, _ |- _ => destruct H
  end.

Ltac solve_case :=
  repeat split; try assumption; try reflexivity; try congruence; try lia;
  eauto.

(** ** Power commands *)

(** X1: a tick issues a power command exactly when it is a confirmed
    release: the button is up, the hold counter is positive and the mode is
    a pending one; exactly then the tick exits, with code 0, and the command
    it issued is the one of the mode. *)
Theorem power_action_iff_confirmed_release (s : AppState) (i : TickInput) :
  let confirmed :=
    is_pressed i = false /\ btn_hold_ticks s > 0 /\ mode s <> INFO in
  (power_actions (events (tick i s)) <> [] <-> confirmed) /\
  ((exists c, result (tick i s) = Exited c) <-> confirmed) /\
  (confirmed ->
   result (tick i s) = Exited 0 /\
   power_actions (events (tick i s))
   = [match mode s with
      | SHUTDOWN_WAIT => "sudo shutdown now"
      | _ => "sudo reboot now"
      end]).
Proof.
  intros confirmed. unfold confirmed.
  rewrite tick_power_actions.
  assert (Hex : (exists c, result (tick i s) = Exited c) <->
                (exists c, result (handle_input s i) = Exited c)).
  { split; intros [c H]; exists c; apply tick_exits; assumption. }
  rewrite Hex. clear Hex.
  assert (H0 : result (tick i s) = Exited 0 <->
               result (handle_input s i) = Exited 0) by apply tick_exits.
  rewrite H0. clear H0.
  destruct (is_pressed i) eqn:Hp.
  - destruct (handle_input_pressed s i Hp) as (s1 & -> & _).
    cbn. repeat split; intros; break_hyps; solve_case.
  - destruct (Z.gtb_spec (btn_hold_ticks s) 0) as [Hh | Hh].
    + apply Z.lt_gt in Hh. destruct (mode s) eqn:Hm.
      * rewrite (handle_input_release_info s i Hp Hh Hm). cbn.
        repeat split; intros; break_hyps; solve_case.
      * rewrite (handle_input_release_reboot s i Hp Hh Hm). cbn.
        repeat split; intros; break_hyps; solve_case.
      * rewrite (handle_input_release_shutdown s i Hp Hh Hm). cbn.
        repeat split; intros; break_hyps; solve_case.
    + rewrite (handle_input_not_held s i Hp Hh). cbn.
      repeat split; intros; break_hyps; solve_case.
Qed.

Lemma power_action_iff_confirmed_release_witness :
  let s := set_btn_hold_ticks 61 (set_mode SHUTDOWN_WAIT AppState_default) in
  (is_pressed idle_input = false /\ btn_hold_ticks s > 0 /\ mode s <> INFO) /\
  result (tick idle_input s) = Exited 0 /\
  power_actions (events (tick idle_input s)) = ["sudo shutdown now"].
Proof.
  intros s.
  assert (H : is_pressed idle_input = false /\ btn_hold_ticks s > 0 /\
              mode s <> INFO).
  { split; [reflexivity|]. split; [reflexivity | discriminate]. }
  split; [exact H|].
  destruct (power_action_iff_confirmed_release s idle_input) as (_ & _ & Hc).
  exact (Hc H).
Defined.

(** ** Hold counter and mode in the reachable states *)

Lemma handle_input_unpressed_Ok (s : AppState) (i : TickInput) l s1 :
  is_pressed i = false -> handle_input s i = (l, Ok s1) ->
  0 <= btn_hold_ticks s ->
  btn_hold_ticks s1 = 0 /\
  (0 < btn_hold_ticks s -> mode s = INFO /\ mode s1 = INFO) /\
  (btn_hold_ticks s = 0 -> s1 = s) /\
  (cycle_tick s1 = cycle_tick s \/ cycle_tick s1 = 0).
Proof.
  intros Hp E H0.
  destruct (Z.gtb_spec (btn_hold_ticks s) 0) as [Hh | Hh].
  - apply Z.lt_gt in Hh. destruct (mode s) eqn:Hm.
    + rewrite (handle_input_release_info s i Hp Hh Hm) in E.
      injection E as _ <-. cbn. repeat split; auto; lia.
    + rewrite (handle_input_release_reboot s i Hp Hh Hm) in E. discriminate.
    + rewrite (handle_input_release_shutdown s i Hp Hh Hm) in E. discriminate.
  - rewrite (handle_input_not_held s i Hp Hh) in E. injection E as _ <-.
    repeat split; auto; lia.
Qed.

Lemma update_data_lower (s : AppState) (i : TickInput) l s2 :
  update_data s i = (l, Ok s2) ->
  0 <= cycle_tick s -> 0 <= stats_tick s ->
  0 <= cycle_tick s2 /\ 0 <= stats_tick s2.
Proof.
  unfold update_data.
  destruct (_ || _); [intros [= <- <-]; auto|].
  rewrite fetch_stats_cases, get_network_info_cases. unfold cycle_screens.
  intros H Hc Hs. consts. revert H.
  destruct (Z.geb_spec (cycle_tick s) 20);
    cbn [stats_tick screen cycle_tick set_screen set_stats_tick set_cycle_tick];
    consts; tests; try destruct (InfoScreen_eqb (screen s) NETWORK);
    try destruct (screen s);
    try destruct (hostname_out i); try destruct (hostname_I_out i);
    intros [= <- <-]; cbn; lia.
Qed.

Lemma tick_unpressed (s : AppState) (i : TickInput) l s' :
  is_pressed i = false -> tick i s = (l, Ok s') -> 0 <= btn_hold_ticks s ->
  btn_hold_ticks s' = 0 /\
  (0 < btn_hold_ticks s -> mode s = INFO /\ mode s' = INFO) /\
  (btn_hold_ticks s = 0 -> mode s' = mode s).
Proof.
  intros Hp Ht H0.
  apply tick_Ok_inv in Ht as (l1 & s1 & l2 & s2 & l3 & H1 & H2 & H3 & _).
  apply (handle_input_unpressed_Ok s i l1 s1 Hp) in H1
    as (Hh1 & Hpos & Hzero & _); [| assumption].
  apply update_data_frame in H2 as (Hm2 & _ & Hh2).
  apply draw_interface_frame in H3 as (Hm3 & _ & Hh3 & _).
  split; [congruence|]. split.
  - intros Hh. destruct (Hpos Hh). split; congruence.
  - intros Hh. rewrite (Hzero Hh) in *. congruence.
Qed.

Lemma reachable_classified (s : AppState) :
  reachable s ->
  0 <= btn_hold_ticks s /\ classified s /\
  (0 < btn_hold_ticks s -> display_timer s = SCREEN_TIMEOUT_TICKS - 1).
Proof.
  induction 1 as [| s i l s' Hr (IH0 & IHc & IHd) Ht].
  - unfold classified. cbn. consts.
    repeat split; intros; try reflexivity; lia.
  - destruct (is_pressed i) eqn:Hp.
    + pose proof (classified_tick_pressed s i l s' Hp IH0 IHc Ht) as Hc.
      destruct (tick_pressed s i l s' Hp Ht) as (Hh & _).
      apply tick_display_timer in Ht as (Hd & _). rewrite Hp in Hd.
      split; [lia|]. split; [assumption|]. intros _. rewrite Hd. consts.
      reflexivity.
    + destruct (tick_unpressed s i l s' Hp Ht IH0) as (Hh & Hpos & Hzero).
      split; [lia|]. split; [| lia].
      unfold classified in *. rewrite Hh. consts.
      destruct IHc as (_ & _ & Hi).
      assert (mode s' = INFO).
      { destruct (Z.eq_dec (btn_hold_ticks s) 0) as [Hz | Hz].
        - rewrite (Hzero Hz). apply Hi. lia.
        - apply Hpos. lia. }
      repeat split; intros; try assumption; lia.
Qed.

(** X2: in every reachable state the hold counter is not negative and the
    mode is the one the thresholds give for it: INFO below the reboot
    threshold, REBOOT_WAIT from there up to the shutdown threshold,
    SHUTDOWN_WAIT from the shutdown threshold on.  While the button is held
    (counter positive) the display is awake: the timer is one below its
    maximum. *)
Theorem mode_follows_hold_counter (s : AppState) :
  reachable s ->
  0 <= btn_hold_ticks s /\
  (mode s = INFO <-> btn_hold_ticks s < REBOOT_HOLD_TICKS) /\
  (mode s = REBOOT_WAIT <->
   REBOOT_HOLD_TICKS <= btn_hold_ticks s < SHUTDOWN_HOLD_TICKS) /\
  (mode s = SHUTDOWN_WAIT <-> SHUTDOWN_HOLD_TICKS <= btn_hold_ticks s) /\
  (0 < btn_hold_ticks s -> display_timer s = SCREEN_TIMEOUT_TICKS - 1).
Proof.
  intros Hr.
  destruct (reachable_classified s Hr) as (H0 & (Hs & Hb & Hi) & Hd).
  split; [assumption|].
  assert (Hcases : btn_hold_ticks s < REBOOT_HOLD_TICKS \/
                   REBOOT_HOLD_TICKS <= btn_hold_ticks s < SHUTDOWN_HOLD_TICKS \/
                   SHUTDOWN_HOLD_TICKS <= btn_hold_ticks s) by lia.
  assert (Hlt : REBOOT_HOLD_TICKS < SHUTDOWN_HOLD_TICKS) by (consts; lia).
  assert (Hmode : forall m, mode s = m ->
            match m with
            | INFO => btn_hold_ticks s < REBOOT_HOLD_TICKS
            | REBOOT_WAIT =>
                REBOOT_HOLD_TICKS <= btn_hold_ticks s < SHUTDOWN_HOLD_TICKS
            | SHUTDOWN_WAIT => SHUTDOWN_HOLD_TICKS <= btn_hold_ticks s
            end).
  { intros m Hm. destruct Hcases as [Hc | [Hc | Hc]].
    - rewrite (Hi Hc) in Hm. subst m. assumption.
    - rewrite (Hb Hc) in Hm. subst m. assumption.
    - rewrite (Hs Hc) in Hm. subst m. assumption. }
  split; [split; [apply (Hmode INFO) | exact Hi]|].
  split; [split; [apply (Hmode REBOOT_WAIT) | exact Hb]|].
  split; [split; [apply (Hmode SHUTDOWN_WAIT) | exact Hs]|].
  exact Hd.
Qed.

Lemma held_reboot_state_reachable : reachable held_reboot_state.
Proof.
  apply (main_loop_reachable (repeat pressed_input 30) AppState_default
           (events (main_loop (repeat pressed_input 30) AppState_default)));
    [constructor|].
  vm_compute. reflexivity.
Qed.

Lemma mode_follows_hold_counter_witness :
  reachable held_reboot_state /\
  (mode held_reboot_state = REBOOT_WAIT <->
   REBOOT_HOLD_TICKS <= btn_hold_ticks held_reboot_state < SHUTDOWN_HOLD_TICKS).
Proof.
  split; [exact held_reboot_state_reachable|].
  apply (mode_follows_hold_counter held_reboot_state).
  exact held_reboot_state_reachable.
Defined.

(** X3: from a reachable state, what a tick with the button up does is
    decided by the hold counter alone.  Below the reboot threshold it issues
    no command and does not exit.  From the reboot threshold up to the
    shutdown threshold it shows the "Rebooting..." overlay, pushes it, runs
    the reboot command and exits with code 0, and nothing else; from the
    shutdown threshold on it does the same with "Shutting Down..." and the
    shutdown command. *)
Theorem release_after_hold (s : AppState) (i : TickInput) :
  reachable s -> is_pressed i = false ->
  (btn_hold_ticks s < REBOOT_HOLD_TICKS ->
   power_actions (events (tick i s)) = [] /\
   forall c, result (tick i s) <> Exited c) /\
  (REBOOT_HOLD_TICKS <= btn_hold_ticks s < SHUTDOWN_HOLD_TICKS ->
   tick i s = (reboot_release_log, Exited 0)) /\
  (SHUTDOWN_HOLD_TICKS <= btn_hold_ticks s ->
   tick i s = (shutdown_release_log, Exited 0)).
Proof.
  intros Hr Hp.
  destruct (reachable_classified s Hr) as (H0 & (Hs & Hb & Hi) & _).
  split; [| split].
  - intros Hlt. specialize (Hi Hlt).
    assert (E : exists s1, handle_input s i = ([GpioInput PIN_BUTTON], Ok s1)).
    { destruct (Z.gtb_spec (btn_hold_ticks s) 0) as [Hh | Hh].
      - apply Z.lt_gt in Hh.
        rewrite (handle_input_release_info s i Hp Hh Hi). eauto.
      - rewrite (handle_input_not_held s i Hp Hh). eauto. }
    destruct E as (s1 & E). split.
    + rewrite tick_power_actions, E. reflexivity.
    + intros c Hc. apply tick_exits in Hc. rewrite E in Hc. discriminate.
  - intros Hrange. specialize (Hb Hrange).
    rewrite tick_cases, (handle_input_release_reboot s i Hp); try assumption.
    + reflexivity.
    + consts. lia.
  - intros Hge. specialize (Hs Hge).
    rewrite tick_cases, (handle_input_release_shutdown s i Hp); try assumption.
    + reflexivity.
    + consts. lia.
Qed.

Lemma release_after_hold_witness :
  (reachable held_reboot_state /\ is_pressed idle_input = false /\
   REBOOT_HOLD_TICKS <= btn_hold_ticks held_reboot_state
   < SHUTDOWN_HOLD_TICKS) /\
  tick idle_input held_reboot_state = (reboot_release_log, Exited 0).
Proof.
  assert (H : REBOOT_HOLD_TICKS <= btn_hold_ticks held_reboot_state
              < SHUTDOWN_HOLD_TICKS) by (consts; cbn; lia).
  split; [split; [exact held_reboot_state_reachable | split;
                  [reflexivity | exact H]]|].
  destruct (release_after_hold held_reboot_state idle_input
              held_reboot_state_reachable eq_refl) as (_ & Hb & _).
  exact (Hb H).
Defined.

(** ** Whole runs *)

Lemma tick_power_outcome (i : TickInput) (s : AppState) :
  match result (tick i s) with
  | Exited c =>
      c = 0 /\
      (power_actions (events (tick i s)) = ["sudo reboot now"] \/
       power_actions (events (tick i s)) = ["sudo shutdown now"])
  | _ => power_actions (events (tick i s)) = []
  end.
Proof.
  rewrite tick_power_actions.
  assert (Hex : forall c, result (tick i s) = Exited c <->
                          result (handle_input s i) = Exited c)
    by (intros c; apply tick_exits).
  assert (Hcases :
    (exists s1, handle_input s i = ([GpioInput PIN_BUTTON], Ok s1)) \/
    handle_input s i = (reboot_release_log, Exited 0) \/
    handle_input s i = (shutdown_release_log, Exited 0)).
  { destruct (is_pressed i) eqn:Hp.
    - destruct (handle_input_pressed s i Hp) as (s1 & E & _). eauto.
    - destruct (Z.gtb_spec (btn_hold_ticks s) 0) as [Hh | Hh].
      + apply Z.lt_gt in Hh. destruct (mode s) eqn:Hm.
        * rewrite (handle_input_release_info s i Hp Hh Hm). eauto.
        * rewrite (handle_input_release_reboot s i Hp Hh Hm). auto.
        * rewrite (handle_input_release_shutdown s i Hp Hh Hm). auto.
      + rewrite (handle_input_not_held s i Hp Hh). eauto. }
  destruct Hcases as [(s1 & E) | [E | E]]; rewrite E in *.
  - destruct (result (tick i s)) as [s' | c | e] eqn:R; try reflexivity.
    pose proof (proj1 (Hex c) eq_refl) as X. discriminate X.
  - rewrite (proj2 (Hex 0) eq_refl). split; [reflexivity | left; reflexivity].
  - rewrite (proj2 (Hex 0) eq_refl). split; [reflexivity | right; reflexivity].
Qed.

Lemma main_loop_power_outcome (ins : list TickInput) : forall (s : AppState),
  match result (main_loop ins s) with
  | Exited c =>
      c = 0 /\
      (power_actions (events (main_loop ins s)) = ["sudo reboot now"] \/
       power_actions (events (main_loop ins s)) = ["sudo shutdown now"])
  | _ => power_actions (events (main_loop ins s)) = []
  end.
Proof.
  induction ins as [| i ins IH]; intros s; [reflexivity|].
  rewrite main_loop_cons, result_bind, events_bind, power_actions_app.
  pose proof (tick_power_outcome i s) as Ht.
  destruct (result (tick i s)) as [s1 | c | e].
  - rewrite Ht. cbn [app]. apply IH.
  - rewrite app_nil_r. assumption.
  - rewrite app_nil_r. assumption.
Qed.

Lemma main_cases (ins : list TickInput) :
  main ins =
  match main_loop ins AppState_default with
  | (l, Ok s) => (splash_log ++ l, Ok s)
  | (l, Exited c) => (splash_log ++ l ++ finally_log, Exited c)
  | (l, Raised e) => (splash_log ++ l ++ finally_log, Raised e)
  end.
Proof.
  unfold main.
  destruct (main_loop ins AppState_default) as [l [s | c | e]];
    cbn; rewrite <- ?app_assoc; reflexivity.
Qed.

(** X4: whatever the button and the providers do, a run of the program
    issues at most one power command, and it issues one exactly when it
    exits: a run that is still going or that failed has issued none, and a
    run that exited did so with code 0 after exactly one command, the reboot
    or the shutdown command. *)
Theorem main_issues_at_most_one_command (ins : list TickInput) :
  match result (main ins) with
  | Exited c =>
      c = 0 /\
      (power_actions (events (main ins)) = ["sudo reboot now"] \/
       power_actions (events (main ins)) = ["sudo shutdown now"])
  | _ => power_actions (events (main ins)) = []
  end.
Proof.
  rewrite main_cases.
  pose proof (main_loop_power_outcome ins AppState_default) as H.
  destruct (main_loop ins AppState_default) as [l [s | c | e]];
    cbn [result events fst snd] in *;
    rewrite !power_actions_app; cbn [power_actions splash_log finally_log app];
    rewrite ?app_nil_r; assumption.
Qed.

Lemma handle_input_outcomes (s : AppState) (i : TickInput) :
  (exists s1, handle_input s i = ([GpioInput PIN_BUTTON], Ok s1)) \/
  handle_input s i = (reboot_release_log, Exited 0) \/
  handle_input s i = (shutdown_release_log, Exited 0).
Proof.
  destruct (is_pressed i) eqn:Hp.
  - destruct (handle_input_pressed s i Hp) as (s1 & E & _). eauto.
  - destruct (Z.gtb_spec (btn_hold_ticks s) 0) as [Hh | Hh].
    + apply Z.lt_gt in Hh. destruct (mode s) eqn:Hm.
      * rewrite (handle_input_release_info s i Hp Hh Hm). eauto.
      * rewrite (handle_input_release_reboot s i Hp Hh Hm). auto.
      * rewrite (handle_input_release_shutdown s i Hp Hh Hm). auto.
    + rewrite (handle_input_not_held s i Hp Hh). eauto.
Qed.






(** ** The display timer *)

Lemma main_loop_app (a b : list TickInput) (s : AppState) :
  main_loop (a ++ b) s = bind (main_loop a s) (main_loop b).
Proof.
  revert s. induction a as [| i a IH]; intros s.
  - cbn. destruct (main_loop b s). reflexivity.
  - cbn [app]. rewrite !main_loop_cons.
    destruct (tick i s) as [l [s1 | c | e]]; cbn [bind]; try reflexivity.
    rewrite IH.
    destruct (main_loop a s1) as [l2 [s2 | c | e]]; cbn [bind];
      rewrite ?app_nil_r; try reflexivity.
    destruct (main_loop b s2). rewrite app_assoc. reflexivity.
Qed.

Lemma main_loop_quiet_total (ins : list TickInput) : forall (s : AppState),
  Forall quiet ins -> btn_hold_ticks s = 0 ->
  exists l s', main_loop ins s = (l, Ok s') /\ btn_hold_ticks s' = 0.
Proof.
  induction ins as [| i ins IH]; intros s Hq Hh.
  - exists [], s. auto.
  - inversion Hq as [| ? ? [Hp Hhost] Hq']; subst.
    pose proof (handle_input_idle s i Hp Hh) as E1.
    destruct (update_data_total s i Hhost) as (l2 & s2 & E2).
    destruct (draw_interface_total s2) as (l3 & s3 & E3).
    pose proof (tick_Ok_intro _ _ _ _ _ _ _ _ E1 E2 E3) as Et.
    apply update_data_frame in E2 as (_ & _ & Hh2).
    apply draw_interface_frame in E3 as (_ & _ & Hh3 & _).
    destruct (IH s3 Hq') as (l & s' & E & Hh'); [congruence|].
    rewrite main_loop_cons, (bind_Ok _ _ _ _ Et), E. cbn. eauto.
Qed.

Lemma main_loop_countdown (ins : list TickInput) : forall (s : AppState) l s',
  Forall (fun i => is_pressed i = false) ins ->
  0 <= display_timer s ->
  main_loop ins s = (l, Ok s') ->
  display_timer s' = Z.max 0 (display_timer s - Z.of_nat (List.length ins)).
Proof.
  induction ins as [| i ins IH]; intros s l s' Hall H0 H.
  - cbn in H. injection H as _ <-. cbn. lia.
  - inversion Hall as [| ? ? Hp Hall']; subst.
    rewrite main_loop_cons in H.
    apply bind_Ok_inv in H as (l1 & s1 & l2 & H1 & H2 & _).
    apply tick_display_timer in H1 as (Hd & _). rewrite Hp in Hd.
    rewrite (IH s1 l2 s' Hall') by
      (try assumption; rewrite Hd; destruct (Z.gtb_spec (display_timer s) 0); lia).
    rewrite Hd. cbn [List.length]. rewrite Nat2Z.inj_succ.
    destruct (Z.gtb_spec (display_timer s) 0); lia.
Qed.

(** X6: with the button up the display timer counts down one per tick and
    stops at 0: after [n] such ticks from a timer [d >= 0] it is
    [max 0 (d - n)].  So the display goes to sleep exactly
    [SCREEN_TIMEOUT_TICKS] ticks after the last press and not one tick
    earlier, and stays asleep.  Such ticks all complete when the button was
    not held before and [hostname] answers. *)
Theorem display_timer_counts_down (ins : list TickInput) (s : AppState) :
  Forall (fun i => is_pressed i = false) ins ->
  0 <= display_timer s ->
  let n := Z.of_nat (List.length ins) in
  (forall l s', main_loop ins s = (l, Ok s') ->
     display_timer s' = Z.max 0 (display_timer s - n) /\
     (display_timer s' = 0 <-> display_timer s <= n)) /\
  (Forall quiet ins -> btn_hold_ticks s = 0 ->
   exists l s', main_loop ins s = (l, Ok s')).
Proof.
  intros Hall H0 n. split.
  - intros l s' E.
    pose proof (main_loop_countdown ins s l s' Hall H0 E) as Hd.
    fold n in Hd. split; [assumption | lia].
  - intros Hq Hh.
    destruct (main_loop_quiet_total ins s Hq Hh) as (l & s' & E & _). eauto.
Qed.

Lemma display_timer_counts_down_witness :
  (Forall (fun i => is_pressed i = false) (repeat idle_input 150) /\
   0 <= display_timer AppState_default) /\
  exists l s',
    main_loop (repeat idle_input 150) AppState_default = (l, Ok s') /\
    display_timer s' = 0.
Proof.
  assert (Hall : Forall (fun i => is_pressed i = false) (repeat idle_input 150)).
  { apply Forall_forall. intros x Hx. apply repeat_spec in Hx. subst x.
    reflexivity. }
  assert (Hq : Forall quiet (repeat idle_input 150)).
  { apply Forall_forall. intros x Hx. apply repeat_spec in Hx. subst x.
    split; [reflexivity | discriminate]. }
  assert (H0 : 0 <= display_timer AppState_default) by (cbn; consts; lia).
  split; [split; assumption|].
  destruct (display_timer_counts_down (repeat idle_input 150) AppState_default
              Hall H0) as (Hd & Htot).
  destruct (Htot Hq eq_refl) as (l & s' & E). exists l, s'.
  split; [assumption|].
  apply (Hd l s' E). rewrite repeat_length. cbn. consts. lia.
Defined.

Lemma update_data_asleep (s : AppState) (i : TickInput) :
  display_timer s <= 0 -> update_data s i = ([], Ok s).
Proof.
  intros Hd. unfold update_data.
  destruct (Z.leb_spec (display_timer s) 0); [reflexivity | lia].
Qed.

(** X7: while the display is asleep and the button is up and was not held,
    a tick changes nothing in the state and calls no provider: it reads the
    button, clears the buffer, pushes the blank frame and sleeps. *)
Theorem asleep_tick_is_idle (s : AppState) (i : TickInput) :
  display_timer s <= 0 -> is_pressed i = false -> btn_hold_ticks s <= 0 ->
  tick i s
  = ([GpioInput PIN_BUTTON; DrawRectangle 0 0 WIDTH HEIGHT;
      DispImage; DispShow; Sleep LOOP_SPEED], Ok s).
Proof.
  intros Hd Hp Hh.
  pose proof (handle_input_not_held s i Hp Hh) as E1.
  pose proof (update_data_asleep s i Hd) as E2.
  destruct (draw_interface_shape s) as (body & E3 & Hblank & _).
  rewrite (Hblank Hd) in E3.
  destruct (Z.gtb_spec (display_timer s) 0); [lia|].
  rewrite (tick_Ok_intro _ _ _ _ _ _ _ _ E1 E2 E3). reflexivity.
Qed.

Lemma asleep_tick_is_idle_witness :
  (display_timer asleep_state <= 0 /\ is_pressed idle_input = false /\
   btn_hold_ticks asleep_state <= 0) /\
  result (tick idle_input asleep_state) = Ok asleep_state.
Proof.
  assert (H : display_timer asleep_state <= 0 /\ is_pressed idle_input = false /\
              btn_hold_ticks asleep_state <= 0).
  { split; [cbn; lia|]. split; [reflexivity | cbn; lia]. }
  split; [exact H|].
  destruct H as (Hd & Hp & Hh).
  rewrite (asleep_tick_is_idle asleep_state idle_input Hd Hp Hh). reflexivity.
Defined.

Lemma draw_interface_awake_draws (s : AppState) :
  0 < display_timer s ->
  existsb is_draw_text (events (draw_interface s)) = true.
Proof.
  intros Hd. unfold draw_interface.
  destruct (Z.gtb_spec (display_timer s) 0); [| lia].
  destruct (mode s); try reflexivity.
  destruct (screen s); cbn [InfoScreen_eqb].
  - destruct (cache_net s). reflexivity.
  - destruct (cache_perf s) as [[c m] d]. reflexivity.
Qed.

(** X8: a tick with the button down wakes the display whatever the state
    was: when the tick completes the timer is one below its maximum and the
    frame of that tick has text on it.  The tick completes whenever
    [hostname] answers; it never exits and never runs a command. *)
Theorem press_wakes_display (s : AppState) (i : TickInput) :
  is_pressed i = true ->
  (forall l s', tick i s = (l, Ok s') ->
     display_timer s' = SCREEN_TIMEOUT_TICKS - 1 /\
     existsb is_draw_text l = true) /\
  (hostname_out i <> None -> exists l s', tick i s = (l, Ok s')) /\
  (forall c, result (tick i s) <> Exited c) /\
  power_actions (events (tick i s)) = [].
Proof.
  intros Hp.
  destruct (handle_input_pressed s i Hp) as (s1 & E1 & _ & Hd1 & _).
  split; [| split; [| split]].
  - intros l s' Ht.
    pose proof (tick_display_timer i s l s' Ht) as (Hd & _).
    rewrite Hp in Hd.
    apply tick_Ok_inv in Ht as (l1 & s1' & l2 & s2 & l3 & H1 & H2 & H3 & ->).
    rewrite E1 in H1. injection H1 as <- <-.
    apply update_data_frame in H2 as (_ & Hd2 & _).
    split.
    + rewrite Hd. consts. reflexivity.
    + rewrite !existsb_app.
      assert (Hdraw : existsb is_draw_text l3 = true).
      { pose proof (draw_interface_awake_draws s2) as Hw.
        rewrite H3 in Hw. apply Hw. rewrite Hd2, Hd1. consts. lia. }
      rewrite Hdraw. rewrite !orb_true_r. reflexivity.
  - apply tick_pressed_total. assumption.
  - intros c Hc. apply tick_exits in Hc. rewrite E1 in Hc. discriminate.
  - rewrite tick_power_actions, E1. reflexivity.
Qed.

Lemma press_wakes_display_witness :
  is_pressed pressed_input = true /\
  exists l s',
    tick pressed_input asleep_state = (l, Ok s') /\
    display_timer s' = SCREEN_TIMEOUT_TICKS - 1.
Proof.
  split; [reflexivity|].
  destruct (press_wakes_display asleep_state pressed_input eq_refl)
    as (Hd & Htot & _).
  destruct Htot as (l & s' & E); [discriminate|].
  exists l, s'. split; [assumption|]. apply (Hd l s' E).
Defined.

(** ** How often the providers are called *)

Lemma reachable_counters_lower (s : AppState) :
  reachable s -> 0 <= cycle_tick s /\ 0 <= stats_tick s.
Proof.
  induction 1 as [| s i l s' Hr [IHc IHs] Ht].
  - cbn. consts. lia.
  - apply tick_Ok_inv in Ht as (l1 & s1 & l2 & s2 & l3 & H1 & H2 & H3 & _).
    apply handle_input_frame in H1 as (_ & Hs1 & Hc1 & _).
    apply draw_interface_frame in H3 as (_ & _ & _ & Hs3 & Hc3 & _).
    rewrite Hs3, Hc3.
    apply (update_data_lower _ _ _ _ H2).
    + destruct Hc1 as [-> | ->]; lia.
    + rewrite Hs1. assumption.
Qed.

(** With both counters below their triggers the Data Refresher calls
    nothing, leaves the screen and the caches alone and moves each counter
    by at most one. *)
Lemma update_data_quiet_state (s : AppState) (i : TickInput) :
  cycle_tick s < INFO_CYCLE_TICKS -> stats_tick s < STATS_UPDATE_TICKS ->
  exists s',
    update_data s i = ([], Ok s') /\
    screen s' = screen s /\
    cache_net s' = cache_net s /\ cache_perf s' = cache_perf s /\
    cycle_tick s <= cycle_tick s' <= cycle_tick s + 1 /\
    stats_tick s <= stats_tick s' <= stats_tick s + 1.
Proof.
  intros Hc Hs. unfold update_data.
  destruct (_ || _); [exists s; repeat split; lia|].
  rewrite fetch_stats_cases. unfold cycle_screens.
  destruct (Z.geb_spec (cycle_tick s) INFO_CYCLE_TICKS); [lia|].
  cbn [stats_tick set_cycle_tick].
  destruct (Z.geb_spec (stats_tick s) STATS_UPDATE_TICKS); [lia|].
  eexists. split; [reflexivity|]. cbn. repeat split; lia.
Qed.

Lemma handle_input_caches (s : AppState) (i : TickInput) l s1 :
  handle_input s i = (l, Ok s1) ->
  cache_net s1 = cache_net s /\ cache_perf s1 = cache_perf s.
Proof.
  unfold handle_input. destruct (is_pressed i).
  - cbn [btn_hold_ticks set_btn_hold_ticks set_display_timer].
    destruct (_ >=? SHUTDOWN_HOLD_TICKS); [intros [= <- <-]; auto|].
    destruct (_ >=? REBOOT_HOLD_TICKS); intros [= <- <-]; auto.
  - destruct (_ >? 0); [| intros [= <- <-]; auto].
    destruct (mode s); cbn; intros [= <- <-]; auto.
Qed.

Lemma tick_quiet_counters (s : AppState) (i : TickInput) :
  0 <= cycle_tick s ->
  cycle_tick s < INFO_CYCLE_TICKS -> stats_tick s < STATS_UPDATE_TICKS ->
  fetch_calls (events (tick i s)) = [] /\
  forall l s', tick i s = (l, Ok s') ->
    cycle_tick s' <= cycle_tick s + 1 /\ stats_tick s' <= stats_tick s + 1 /\
    cache_net s' = cache_net s /\ cache_perf s' = cache_perf s.
Proof.
  intros H0 Hc Hs. rewrite tick_cases.
  destruct (handle_input_outcomes s i) as [(s1 & E1) | [E1 | E1]];
    rewrite E1; [| split; [reflexivity | discriminate] ..].
  pose proof (handle_input_frame _ _ _ _ E1) as (_ & Hs1 & Hc1 & _).
  pose proof (handle_input_caches _ _ _ _ E1) as (Hn1 & Hp1).
  destruct (update_data_quiet_state s1 i) as
    (s2 & E2 & _ & Hn2 & Hp2 & Hc2 & Hs2).
  { destruct Hc1 as [-> | ->]; lia. }
  { lia. }
  rewrite E2.
  destruct (draw_interface_total s2) as (l3 & s3 & E3). rewrite E3.
  apply draw_interface_frame in E3
    as (_ & _ & _ & Hs3 & Hc3 & Hn3 & Hp3 & _ & _ & Hf).
  split.
  - cbn [events fst]. rewrite !fetch_calls_app, Hf. reflexivity.
  - intros l s' [= <- <-].
    repeat split; try congruence; destruct Hc1 as [Hc1 | Hc1]; lia.
Qed.

Lemma main_loop_quiet_counters (ins : list TickInput) : forall (s : AppState),
  reachable s ->
  cycle_tick s + Z.of_nat (List.length ins) <= INFO_CYCLE_TICKS ->
  stats_tick s + Z.of_nat (List.length ins) <= STATS_UPDATE_TICKS ->
  fetch_calls (events (main_loop ins s)) = [] /\
  forall l s', main_loop ins s = (l, Ok s') ->
    cache_net s' = cache_net s /\ cache_perf s' = cache_perf s.
Proof.
  induction ins as [| i ins IH]; intros s Hr Hc Hs.
  - split; [reflexivity|]. cbn. intros l s' [= <- <-]. auto.
  - cbn [List.length] in Hc, Hs. rewrite Nat2Z.inj_succ in Hc, Hs.
    destruct (reachable_counters_lower s Hr) as (H0 & _).
    destruct (tick_quiet_counters s i) as (Hf & Hstep); try lia.
    rewrite main_loop_cons, events_bind, fetch_calls_app, Hf.
    destruct (tick i s) as [l1 [s1 | c | e]] eqn:Et; cbn [result snd app].
    + destruct (Hstep l1 s1 eq_refl) as (Hc1 & Hs1 & Hn1 & Hp1).
      destruct (IH s1) as (Hf' & Hcache); try lia.
      { eapply reachable_tick; eauto. }
      split; [assumption|].
      intros l s' E. cbn [bind] in E.
      destruct (main_loop ins s1) as [l2 [s2 | c | e]] eqn:E2;
        try discriminate.
      injection E as _ <-.
      destruct (Hcache l2 s2 eq_refl). split; congruence.
    + split; [reflexivity | discriminate].
    + split; [reflexivity | discriminate].
Qed.

(** X9: from a reachable state, as long as neither counter can reach its
    trigger (the statistics counter plus the number of ticks stays within
    [STATS_UPDATE_TICKS], the cycle counter plus it within
    [INFO_CYCLE_TICKS]), the loop calls no provider at all, whatever the
    button does, and both caches keep their values.  After a refresh the
    next one is therefore at least [STATS_UPDATE_TICKS + 1] ticks away
    unless the screen toggles. *)
Theorem no_fetch_before_counters_due (ins : list TickInput) (s : AppState) :
  reachable s ->
  cycle_tick s + Z.of_nat (List.length ins) <= INFO_CYCLE_TICKS ->
  stats_tick s + Z.of_nat (List.length ins) <= STATS_UPDATE_TICKS ->
  fetch_calls (events (main_loop ins s)) = [] /\
  (forall e, result (main_loop ins s) <> Raised e) /\
  forall l s', main_loop ins s = (l, Ok s') ->
    cache_net s' = cache_net s /\ cache_perf s' = cache_perf s.
Proof.
  intros Hr Hc Hs.
  destruct (main_loop_quiet_counters ins s Hr Hc Hs) as (Hf & Hcache).
  split; [assumption|]. split; [| assumption].
  clear Hcache. revert s Hr Hc Hs Hf.
  induction ins as [| i ins IH]; intros s Hr Hc Hs Hf e; [discriminate|].
  cbn [List.length] in Hc, Hs. rewrite Nat2Z.inj_succ in Hc, Hs.
  destruct (reachable_counters_lower s Hr) as (H0 & _).
  destruct (tick_quiet_counters s i) as (Hft & Hstep); try lia.
  rewrite main_loop_cons, result_bind.
  destruct (tick i s) as [l1 [s1 | c | e1]] eqn:Et; cbn [result snd].
  - destruct (Hstep l1 s1 eq_refl) as (Hc1 & Hs1 & _).
    apply IH; try lia.
    + eapply reachable_tick; eauto.
    + apply main_loop_quiet_counters; try lia. eapply reachable_tick; eauto.
  - discriminate.
  - exfalso. rewrite tick_cases in Et.
    destruct (handle_input_outcomes s i) as [(s1 & E1) | [E1 | E1]];
      rewrite E1 in Et; try discriminate.
    pose proof (handle_input_frame _ _ _ _ E1) as (_ & Hs1 & Hc1 & _).
    destruct (update_data_quiet_state s1 i) as (s2 & E2 & _).
    { destruct Hc1 as [-> | ->]; lia. }
    { lia. }
    rewrite E2 in Et.
    destruct (draw_interface_total s2) as (l3 & s3 & E3). rewrite E3 in Et.
    discriminate.
Qed.

Lemma no_fetch_before_counters_due_witness :
  (reachable held_reboot_state /\
   cycle_tick held_reboot_state + Z.of_nat (List.length (repeat pressed_input 3))
   <= INFO_CYCLE_TICKS /\
   stats_tick held_reboot_state + Z.of_nat (List.length (repeat pressed_input 3))
   <= STATS_UPDATE_TICKS) /\
  fetch_calls (events (main_loop (repeat pressed_input 3) held_reboot_state)) = [].
Proof.
  assert (Hc : cycle_tick held_reboot_state
               + Z.of_nat (List.length (repeat pressed_input 3))
               <= INFO_CYCLE_TICKS) by (consts; cbn; lia).
  assert (Hs : stats_tick held_reboot_state
               + Z.of_nat (List.length (repeat pressed_input 3))
               <= STATS_UPDATE_TICKS) by (consts; cbn; lia).
  split; [split; [exact held_reboot_state_reachable | split; assumption]|].
  apply (no_fetch_before_counters_due (repeat pressed_input 3) held_reboot_state
           held_reboot_state_reachable Hc Hs).
Defined.

(** ** Caches and frames *)

Lemma update_data_caches (s : AppState) (i : TickInput) l s2 :
  update_data s i = (l, Ok s2) ->
  (l = [] /\ cache_net s2 = cache_net s /\ cache_perf s2 = cache_perf s) \/
  (screen s2 = NETWORK /\ get_network_info i = (l, Ok (cache_net s2)) /\
   cache_perf s2 = cache_perf s) \/
  (screen s2 = PERFORMANCE /\ l = [CpuPercent; VirtualMemory; DiskUsage "/"] /\
   cache_perf s2 = (cpu_percent i, mem_percent i, disk_percent i) /\
   cache_net s2 = cache_net s).
Proof.
  unfold update_data.
  destruct (_ || _); [intros [= <- <-]; auto|].
  assert (Hn : cache_net (cycle_screens s) = cache_net s /\
               cache_perf (cycle_screens s) = cache_perf s).
  { unfold cycle_screens. destruct (_ >=? _); auto. }
  destruct Hn as (Hn & Hp). revert Hn Hp.
  generalize (cycle_screens s) as t. intros t Hn Hp.
  rewrite fetch_stats_cases.
  destruct (_ >=? _); [| intros [= <- <-]; auto].
  destruct (screen t) eqn:Esc.
  - destruct (get_network_info i) as [ln [net | c | e]]; try discriminate.
    intros [= <- <-]. right. left. auto.
  - intros [= <- <-]. right. right. auto.
Qed.

Lemma get_network_info_calls (i : TickInput) :
  fetch_calls (events (get_network_info i)) <> [].
Proof.
  rewrite get_network_info_cases.
  destruct (hostname_out i); try destruct (hostname_I_out i); discriminate.
Qed.

(** X10: a tick writes at most one cache, the one of the screen that is
    active when the tick ends, and only with what the providers answered in
    that tick.  A changed network cache means the screen is NETWORK and the
    pair is the result of [get_network_info]; a changed performance cache
    means the screen is PERFORMANCE and the triple is the psutil readings.
    A tick that calls no provider leaves both caches as they were. *)
Theorem tick_writes_one_cache (s : AppState) (i : TickInput) l s' :
  tick i s = (l, Ok s') ->
  (cache_net s' = cache_net s \/ cache_perf s' = cache_perf s) /\
  (cache_net s' <> cache_net s ->
   screen s' = NETWORK /\ result (get_network_info i) = Ok (cache_net s')) /\
  (cache_perf s' <> cache_perf s ->
   screen s' = PERFORMANCE /\
   cache_perf s' = (cpu_percent i, mem_percent i, disk_percent i)) /\
  (fetch_calls l = [] ->
   cache_net s' = cache_net s /\ cache_perf s' = cache_perf s).
Proof.
  intros Ht.
  apply tick_Ok_inv in Ht as (l1 & s1 & l2 & s2 & l3 & H1 & H2 & H3 & ->).
  pose proof (handle_input_caches _ _ _ _ H1) as (Hn1 & Hp1).
  pose proof (handle_input_frame _ _ _ _ H1) as (_ & _ & _ & ->).
  apply draw_interface_frame in H3
    as (_ & Hsc3 & _ & _ & _ & Hn3 & Hp3 & _ & _ & Hf3).
  rewrite Hn3, Hp3, Hsc3, <- Hn1, <- Hp1.
  rewrite !fetch_calls_app, Hf3. cbn [fetch_calls filter is_fetch_call app].
  rewrite app_nil_r.
  destruct (update_data_caches _ _ _ _ H2)
    as [(-> & Hn & Hp) | [(Hsc & Hg & Hp) | (Hsc & -> & Hp & Hn)]].
  - repeat split; auto; intros; congruence.
  - split; [right; assumption|]. split; [| split].
    + intros _. rewrite Hg. auto.
    + intros Hne. congruence.
    + intros Hnil. pose proof (get_network_info_calls i) as Hc.
      rewrite Hg in Hc. cbn [events fst] in Hc. contradiction.
  - split; [left; assumption|]. split; [| split].
    + intros Hne. congruence.
    + intros _. auto.
    + discriminate.
Qed.

Lemma tick_writes_one_cache_witness :
  exists l s',
    tick idle_input AppState_default = (l, Ok s') /\
    (cache_net s' = cache_net AppState_default \/
     cache_perf s' = cache_perf AppState_default).
Proof.
  do 2 eexists. split.
  - vm_compute. reflexivity.
  - eapply (tick_writes_one_cache AppState_default idle_input).
    vm_compute. reflexivity.
Defined.

Lemma update_data_no_text (s : AppState) (i : TickInput) :
  text_lines (events (update_data s i)) = [].
Proof.
  unfold update_data.
  destruct (_ || _); [reflexivity|].
  rewrite fetch_stats_cases, get_network_info_cases.
  destruct (_ >=? _); [| reflexivity].
  destruct (screen (cycle_screens s)); [| reflexivity].
  destruct (hostname_out i); try destruct (hostname_I_out i); reflexivity.
Qed.

Lemma draw_interface_text_lines (s : AppState) :
  text_lines (events (draw_interface s)) =
  if display_timer s >? 0 then
    match mode s with
    | INFO =>
        match screen s with
        | NETWORK =>
            [DrawText 0 0 (Plain ("HOST: " ++ fst (cache_net s)));
             DrawText 0 11 (Plain ("IP  : " ++ snd (cache_net s)));
             DrawText 0 21 (Plain "--------------------")]
        | PERFORMANCE =>
            [DrawText 0 0 (Percent1f "CPU : " (fst (fst (cache_perf s))));
             DrawText 0 11 (Percent1f "RAM : " (snd (fst (cache_perf s))));
             DrawText 0 21 (Percent1f "DISK: " (snd (cache_perf s)))]
        end
    | REBOOT_WAIT =>
        [DrawText 0 0 (Plain "......REBOOT......");
         DrawText 0 11 (Plain "  Release Button  ");
         DrawText 0 21 (Plain "      To Reboot      ")]
    | SHUTDOWN_WAIT =>
        [DrawText 0 0 (Plain ".....SHUTDOWN.....");
         DrawText 0 11 (Plain "  Release Button  ");
         DrawText 0 21 (Plain "     To Shutdown     ")]
    end
  else [].
Proof.
  unfold draw_interface.
  destruct (display_timer s >? 0); [| reflexivity].
  destruct (mode s); try reflexivity.
  destruct (screen s); cbn [InfoScreen_eqb].
  - destruct (cache_net s). reflexivity.
  - destruct (cache_perf s) as [[c m] d]. reflexivity.
Qed.

(** X11: the frame a tick pushes shows the state the tick ends in.  When
    the display is awake in that tick (the button is down, or the timer was
    positive), the text of the frame is: in INFO on the NETWORK screen the
    host and ip of the network cache as it is after the tick's refresh, and
    a rule; on the PERFORMANCE screen the three readings of the performance
    cache; in REBOOT_WAIT and SHUTDOWN_WAIT the menu overlay of the action.
    When the display is asleep and the button is up, the frame has no
    text. *)
Theorem frame_shows_state_after_tick (s : AppState) (i : TickInput) l s' :
  tick i s = (l, Ok s') ->
  (is_pressed i = true \/ 0 < display_timer s ->
   text_lines l =
   match mode s' with
   | INFO =>
       match screen s' with
       | NETWORK =>
           [DrawText 0 0 (Plain ("HOST: " ++ fst (cache_net s')));
            DrawText 0 11 (Plain ("IP  : " ++ snd (cache_net s')));
            DrawText 0 21 (Plain "--------------------")]
       | PERFORMANCE =>
           [DrawText 0 0 (Percent1f "CPU : " (fst (fst (cache_perf s'))));
            DrawText 0 11 (Percent1f "RAM : " (snd (fst (cache_perf s'))));
            DrawText 0 21 (Percent1f "DISK: " (snd (cache_perf s')))]
       end
   | REBOOT_WAIT =>
       [DrawText 0 0 (Plain "......REBOOT......");
        DrawText 0 11 (Plain "  Release Button  ");
        DrawText 0 21 (Plain "      To Reboot      ")]
   | SHUTDOWN_WAIT =>
       [DrawText 0 0 (Plain ".....SHUTDOWN.....");
        DrawText 0 11 (Plain "  Release Button  ");
        DrawText 0 21 (Plain "     To Shutdown     ")]
   end) /\
  (is_pressed i = false -> display_timer s <= 0 -> text_lines l = []).
Proof.
  intros Ht.
  apply tick_Ok_inv in Ht as (l1 & s1 & l2 & s2 & l3 & H1 & H2 & H3 & ->).
  pose proof (handle_input_frame _ _ _ _ H1) as (Hd1 & _ & _ & ->).
  pose proof (update_data_frame _ _ _ _ H2) as (_ & Hd2 & _).
  pose proof (update_data_no_text s1 i) as Hu. rewrite H2 in Hu.
  pose proof (draw_interface_text_lines s2) as Hdraw. rewrite H3 in Hdraw.
  cbn [events fst] in Hu, Hdraw.
  apply draw_interface_frame in H3
    as (Hm3 & Hsc3 & _ & _ & _ & Hn3 & Hp3 & _).
  unfold text_lines in *. rewrite !filter_app, Hu, Hdraw.
  cbn [filter is_draw_text app]. rewrite app_nil_r.
  rewrite Hm3, Hsc3, Hn3, Hp3, Hd2, Hd1.
  split.
  - intros Hawake.
    destruct (Z.gtb_spec (if is_pressed i then SCREEN_TIMEOUT_TICKS
                          else display_timer s) 0) as [_ | Hle];
      [reflexivity|].
    exfalso. destruct Hawake as [Hp | Hpos].
    + rewrite Hp in Hle. revert Hle. consts. lia.
    + destruct (is_pressed i); [revert Hle; consts |]; lia.
  - intros Hp Hle. rewrite Hp.
    destruct (Z.gtb_spec (display_timer s) 0); [lia | reflexivity].
Qed.

Lemma frame_shows_state_after_tick_witness :
  exists l s',
    tick no_ip_input AppState_default = (l, Ok s') /\
    text_lines l
    = [DrawText 0 0 (Plain "HOST: node1");
       DrawText 0 11 (Plain "IP  : No IP");
       DrawText 0 21 (Plain "--------------------")].
Proof.
  do 2 eexists. split.
  - vm_compute. reflexivity.
  - match goal with
    | |- text_lines ?l = _ =>
        destruct (frame_shows_state_after_tick AppState_default no_ip_input
                    l _ ltac:(vm_compute; reflexivity)) as (H & _)
    end.
    rewrite H; [reflexivity|]. right. reflexivity.
Defined.

(** ** Overlays *)


Lemma string_app_empty_r (a : string) : (a ++ "")%string = a.
Proof. induction a as [| c a IH]; cbn; [reflexivity | rewrite IH; reflexivity]. Qed.











(** ** The period of the refresh *)

Lemma provider_calls_are_fetch_calls (sc : InfoScreen) (i : TickInput) :
  fetch_calls (provider_calls sc i) = provider_calls sc i.
Proof.
  destruct sc; cbn [provider_calls]; [| reflexivity].
  rewrite get_network_info_cases.
  destruct (hostname_out i); try destruct (hostname_I_out i); reflexivity.
Qed.

(** A quiet tick in INFO with the display awake and neither counter due:
    both counters gain one and no provider is called. *)
Lemma quiet_tick_counts (s : AppState) (i : TickInput) :
  is_pressed i = false ->
  mode s = INFO -> btn_hold_ticks s = 0 -> 0 < display_timer s ->
  cycle_tick s < INFO_CYCLE_TICKS -> stats_tick s < STATS_UPDATE_TICKS ->
  exists l s',
    tick i s = (l, Ok s') /\ fetch_calls l = [] /\
    mode s' = INFO /\ btn_hold_ticks s' = 0 /\ screen s' = screen s /\
    display_timer s' = display_timer s - 1 /\
    cycle_tick s' = cycle_tick s + 1 /\ stats_tick s' = stats_tick s + 1.
Proof.
  intros Hp Hm Hh Hd Hc Hs.
  pose proof (handle_input_idle s i Hp Hh) as E1.
  assert (E2 : update_data s i
               = ([], Ok (set_stats_tick (stats_tick s + 1)
                            (set_cycle_tick (cycle_tick s + 1) s)))).
  { rewrite (update_data_active s i Hm Hd), fetch_stats_cases.
    unfold cycle_screens.
    destruct (Z.geb_spec (cycle_tick s) INFO_CYCLE_TICKS); [lia|].
    cbn [stats_tick set_cycle_tick].
    destruct (Z.geb_spec (stats_tick s) STATS_UPDATE_TICKS); [lia|].
    reflexivity. }
  destruct (draw_interface_total
              (set_stats_tick (stats_tick s + 1)
                 (set_cycle_tick (cycle_tick s + 1) s))) as (l3 & s3 & E3).
  exists ([GpioInput PIN_BUTTON] ++ [] ++ l3 ++ [Sleep LOOP_SPEED]), s3.
  split; [apply (tick_Ok_intro _ _ _ _ _ _ _ _ E1 E2 E3)|].
  apply draw_interface_frame in E3
    as (Hm3 & Hsc3 & Hh3 & Hs3 & Hc3 & _ & _ & Hd3 & _ & Hf).
  cbn in Hm3, Hsc3, Hh3, Hs3, Hc3, Hd3.
  rewrite !fetch_calls_app, Hf.
  destruct (Z.gtb_spec (display_timer s) 0); [| lia].
  repeat split; try congruence.
Qed.

Lemma quiet_ticks_count (ins : list TickInput) : forall (s : AppState),
  Forall (fun i => is_pressed i = false) ins ->
  mode s = INFO -> btn_hold_ticks s = 0 ->
  Z.of_nat (List.length ins) <= display_timer s ->
  cycle_tick s + Z.of_nat (List.length ins) <= INFO_CYCLE_TICKS ->
  stats_tick s + Z.of_nat (List.length ins) <= STATS_UPDATE_TICKS ->
  exists l s',
    main_loop ins s = (l, Ok s') /\ fetch_calls l = [] /\
    mode s' = INFO /\ btn_hold_ticks s' = 0 /\ screen s' = screen s /\
    display_timer s' = display_timer s - Z.of_nat (List.length ins) /\
    cycle_tick s' = cycle_tick s + Z.of_nat (List.length ins) /\
    stats_tick s' = stats_tick s + Z.of_nat (List.length ins).
Proof.
  induction ins as [| i ins IH]; intros s Hall Hm Hh Hd Hc Hs.
  - exists [], s. cbn [List.length main_loop]. repeat split; try assumption; lia.
  - inversion Hall as [| ? ? Hp Hall']; subst.
    cbn [List.length] in *. rewrite Nat2Z.inj_succ in *.
    destruct (quiet_tick_counts s i Hp Hm Hh) as
      (l1 & s1 & E1 & Hf1 & Hm1 & Hh1 & Hsc1 & Hd1 & Hc1 & Hs1); try lia.
    destruct (IH s1 Hall' Hm1 Hh1) as
      (l2 & s2 & E2 & Hf2 & Hm2 & Hh2 & Hsc2 & Hd2 & Hc2 & Hs2); try lia.
    exists (l1 ++ l2), s2.
    rewrite main_loop_cons, (bind_Ok _ _ _ _ E1), E2.
    rewrite fetch_calls_app, Hf1, Hf2.
    repeat split; try congruence; lia.
Qed.

Lemma main_loop_single_fetch (i : TickInput) (s : AppState) :
  fetch_calls (events (main_loop [i] s)) = fetch_calls (events (tick i s)).
Proof.
  rewrite main_loop_cons, events_bind, fetch_calls_app.
  destruct (result (tick i s)); cbn; rewrite app_nil_r; reflexivity.
Qed.

(** A quiet tick in INFO with the display awake, the statistics counter at
    its trigger and no toggle due calls the providers of the screen. *)
Lemma tick_refresh_due (s : AppState) (i : TickInput) :
  is_pressed i = false ->
  mode s = INFO -> btn_hold_ticks s = 0 -> 0 < display_timer s ->
  cycle_tick s < INFO_CYCLE_TICKS -> stats_tick s = STATS_UPDATE_TICKS ->
  fetch_calls (events (tick i s)) = provider_calls (screen s) i.
Proof.
  intros Hp Hm Hh Hd Hc Hs.
  rewrite tick_cases, (handle_input_idle s i Hp Hh).
  rewrite (update_data_active s i Hm Hd).
  assert (Hcyc : cycle_screens s = set_cycle_tick (cycle_tick s + 1) s).
  { unfold cycle_screens.
    destruct (Z.geb_spec (cycle_tick s) INFO_CYCLE_TICKS); [lia | reflexivity]. }
  rewrite Hcyc.
  destruct (fetch_stats_due (set_cycle_tick (cycle_tick s + 1) s) i)
    as (Hev & _); [exact Hs|].
  cbn [screen set_cycle_tick] in Hev.
  destruct (fetch_stats _ i) as [l2 [s2 | c | e]]; cbn [events fst] in Hev;
    subst l2; cbn [events fst].
  - destruct (draw_interface_total s2) as (l3 & s3 & E3). rewrite E3.
    apply draw_interface_frame in E3
      as (_ & _ & _ & _ & _ & _ & _ & _ & _ & Hf3).
    cbn [events fst]. rewrite !fetch_calls_app, Hf3.
    rewrite provider_calls_are_fetch_calls. cbn. rewrite app_nil_r.
    reflexivity.
  - rewrite fetch_calls_app, provider_calls_are_fetch_calls. reflexivity.
  - rewrite fetch_calls_app, provider_calls_are_fetch_calls. reflexivity.
Qed.

(** X13: in INFO with the display awake and the button up, starting with
    the statistics counter at 0 (just after a refresh) and no screen toggle
    coming, the next [STATS_UPDATE_TICKS] ticks call no provider and the
    tick after them calls the providers of the active screen: the data is
    refreshed once every [STATS_UPDATE_TICKS + 1] ticks. *)
Theorem refresh_every_trigger_plus_one_ticks (ins : list TickInput)
  (i : TickInput) (s : AppState) :
  Forall (fun j => is_pressed j = false) ins -> is_pressed i = false ->
  mode s = INFO -> btn_hold_ticks s = 0 -> stats_tick s = 0 ->
  Z.of_nat (List.length ins) = STATS_UPDATE_TICKS ->
  STATS_UPDATE_TICKS < display_timer s ->
  cycle_tick s + STATS_UPDATE_TICKS < INFO_CYCLE_TICKS ->
  fetch_calls (events (main_loop ins s)) = [] /\
  fetch_calls (events (main_loop (ins ++ [i]) s))
  = provider_calls (screen s) i /\
  provider_calls (screen s) i <> [].
Proof.
  intros Hall Hp Hm Hh Hs Hlen Hd Hc.
  destruct (quiet_ticks_count ins s Hall Hm Hh) as
    (l & s1 & E & Hf & Hm1 & Hh1 & Hsc1 & Hd1 & Hc1 & Hs1); try lia.
  rewrite E. cbn [events fst]. split; [assumption|].
  split; [| apply provider_calls_nonempty].
  rewrite main_loop_app, events_bind, E. cbn [events result fst snd].
  rewrite fetch_calls_app, Hf, main_loop_single_fetch. cbn [app].
  rewrite <- Hsc1. apply tick_refresh_due; try assumption; lia.
Qed.

Lemma refresh_every_trigger_plus_one_ticks_witness :
  let s := set_stats_tick 0 AppState_default in
  (Forall (fun j => is_pressed j = false) (repeat idle_input 5) /\
   Z.of_nat (List.length (repeat idle_input 5)) = STATS_UPDATE_TICKS /\
   cycle_tick s + STATS_UPDATE_TICKS < INFO_CYCLE_TICKS) /\
  fetch_calls (events (main_loop (repeat idle_input 5 ++ [idle_input]) s))
  = provider_calls NETWORK idle_input.
Proof.
  intros s.
  assert (Hall : Forall (fun j => is_pressed j = false) (repeat idle_input 5)).
  { apply Forall_forall. intros x Hx. apply repeat_spec in Hx. subst x.
    reflexivity. }
  assert (Hlen : Z.of_nat (List.length (repeat idle_input 5))
                 = STATS_UPDATE_TICKS) by (consts; reflexivity).
  assert (Hc : cycle_tick s + STATS_UPDATE_TICKS < INFO_CYCLE_TICKS)
    by (consts; cbn; lia).
  split; [repeat split; assumption|].
  apply (refresh_every_trigger_plus_one_ticks (repeat idle_input 5)
           idle_input s); try assumption; reflexivity.
Defined.

(** ** Whitespace around the network data *)

Lemma rev_string_acc (s acc : string) :
  Py.rev_string s acc = (Py.rev_string s "" ++ acc)%string.
Proof.
  revert acc. induction s as [| c s IH]; intros acc; [reflexivity|].
  cbn [Py.rev_string]. rewrite (IH (String c acc)), (IH (String c "")).
  generalize (Py.rev_string s ""). intros r.
  induction r as [| d r IHr]; cbn; [reflexivity | rewrite IHr; reflexivity].
Qed.

Lemma string_app_assoc (a b c : string) :
  ((a ++ b) ++ c)%string = (a ++ b ++ c)%string.
Proof. induction a as [| x a IH]; cbn; [reflexivity | rewrite IH; reflexivity]. Qed.

Lemma rev_string_app (a b : string) :
  Py.rev_string (a ++ b) "" = (Py.rev_string b "" ++ Py.rev_string a "")%string.
Proof.
  induction a as [| c a IH]; cbn [append Py.rev_string].
  - rewrite string_app_empty_r. reflexivity.
  - rewrite (rev_string_acc (a ++ b)), (rev_string_acc a), IH.
    apply string_app_assoc.
Qed.

Lemma rev_string_involutive (s : string) :
  Py.rev_string (Py.rev_string s "") "" = s.
Proof.
  induction s as [| c s IH]; [reflexivity|].
  cbn [Py.rev_string].
  rewrite (rev_string_acc s (String c "")), rev_string_app, IH. reflexivity.
Qed.

Lemma lstrip_no_leading_space (s : string) :
  starts_with_space (Py.lstrip s) = false.
Proof.
  induction s as [| c s IH]; [reflexivity|].
  cbn [Py.lstrip]. destruct (Py.isspace c) eqn:E; [assumption|].
  cbn. assumption.
Qed.

Lemma lstrip_suffix (s : string) : exists w, s = (w ++ Py.lstrip s)%string.
Proof.
  induction s as [| c s (w & IH)]; [exists ""; reflexivity|].
  cbn [Py.lstrip]. destruct (Py.isspace c).
  - exists (String c w). cbn. rewrite <- IH. reflexivity.
  - exists "". reflexivity.
Qed.

Lemma rstrip_prefix (s : string) : exists w, s = (Py.rstrip s ++ w)%string.
Proof.
  unfold Py.rstrip.
  destruct (lstrip_suffix (Py.rev_string s "")) as (w & E).
  exists (Py.rev_string w "").
  rewrite <- rev_string_app, <- E, rev_string_involutive. reflexivity.
Qed.

Lemma strip_no_space_around (s : string) :
  starts_with_space (Py.strip s) = false /\
  ends_with_space (Py.strip s) = false.
Proof.
  unfold Py.strip. split.
  - pose proof (lstrip_no_leading_space s) as Hl.
    destruct (rstrip_prefix (Py.lstrip s)) as (w & E).
    destruct (Py.rstrip (Py.lstrip s)) as [| c r]; [reflexivity|].
    rewrite E in Hl. exact Hl.
  - unfold ends_with_space, Py.rstrip. rewrite rev_string_involutive.
    apply lstrip_no_leading_space.
Qed.

(** X14: whenever [get_network_info] returns, neither the hostname nor the
    ip of the pair begins or ends with whitespace (the outputs of the
    commands are stripped, and the fallback "No IP" has none), and when the
    network cache is refreshed by [update_data] the same holds for what is
    cached. *)
Theorem network_data_is_stripped (i : TickInput) :
  (forall l host ip, get_network_info i = (l, Ok (host, ip)) ->
     starts_with_space host = false /\ ends_with_space host = false /\
     starts_with_space ip = false /\ ends_with_space ip = false) /\
  (forall s l s', update_data s i = (l, Ok s') ->
     cache_net s' <> cache_net s ->
     starts_with_space (fst (cache_net s')) = false /\
     ends_with_space (fst (cache_net s')) = false /\
     starts_with_space (snd (cache_net s')) = false /\
     ends_with_space (snd (cache_net s')) = false).
Proof.
  assert (Hget : forall l host ip, get_network_info i = (l, Ok (host, ip)) ->
     starts_with_space host = false /\ ends_with_space host = false /\
     starts_with_space ip = false /\ ends_with_space ip = false).
  { intros l host ip. rewrite get_network_info_cases.
    destruct (hostname_out i) as [h |]; [| discriminate].
    destruct (hostname_I_out i) as [a |]; intros [= <- <- <-].
    - destruct (strip_no_space_around h), (strip_no_space_around a). auto.
    - destruct (strip_no_space_around h). auto. }
  split; [exact Hget|].
  intros s l s' E Hne.
  destruct (update_data_caches _ _ _ _ E)
    as [(_ & Hn & _) | [(_ & Hg & _) | (_ & _ & _ & Hn)]]; try congruence.
  destruct (cache_net s') as [host ip]. apply (Hget l host ip Hg).
Qed.

(** ** What the hold counter counts *)

Lemma held_run_from_nonneg (ins : list TickInput) : forall h,
  0 <= h -> 0 <= held_run_from h ins.
Proof.
  unfold held_run_from. induction ins as [| i ins IH]; intros h Hh;
    [assumption|].
  cbn [fold_left]. apply IH. destruct (is_pressed i); lia.
Qed.

Lemma main_loop_hold_counter (ins : list TickInput) : forall (s : AppState) l s',
  0 <= btn_hold_ticks s -> main_loop ins s = (l, Ok s') ->
  btn_hold_ticks s' = held_run_from (btn_hold_ticks s) ins.
Proof.
  induction ins as [| i ins IH]; intros s l s' H0 E.
  - cbn in E. injection E as _ <-. reflexivity.
  - rewrite main_loop_cons in E.
    apply bind_Ok_inv in E as (l1 & s1 & l2 & E1 & E2 & _).
    unfold held_run_from. cbn [fold_left]. fold (held_run_from
      (if is_pressed i then btn_hold_ticks s + 1 else 0) ins).
    assert (Hh : btn_hold_ticks s1
                 = if is_pressed i then btn_hold_ticks s + 1 else 0).
    { destruct (is_pressed i) eqn:Hp.
      - apply (tick_pressed s i l1 s1 Hp E1).
      - apply (tick_unpressed s i l1 s1 Hp E1 H0). }
    rewrite <- Hh. apply (IH s1 l2 s'); [| assumption].
    rewrite Hh. destruct (is_pressed i); lia.
Qed.

(** X15: as long as the program runs, the hold counter is the number of
    ticks in a row, up to the last one, in which the button was down (0
    after a tick with the button up).  So a tick issues a power command only
    with the button up after at least [REBOOT_HOLD_TICKS] such ticks in a
    row, and the shutdown command only after at least
    [SHUTDOWN_HOLD_TICKS]. *)
Theorem hold_counter_counts_presses_in_a_row (ins : list TickInput) l s :
  main_loop ins AppState_default = (l, Ok s) ->
  btn_hold_ticks s = held_run ins /\
  forall i,
    (power_actions (events (tick i s)) <> [] ->
     is_pressed i = false /\ REBOOT_HOLD_TICKS <= held_run ins) /\
    (power_actions (events (tick i s)) = ["sudo shutdown now"] ->
     is_pressed i = false /\ SHUTDOWN_HOLD_TICKS <= held_run ins).
Proof.
  intros E.
  assert (Hh : btn_hold_ticks s = held_run ins).
  { apply (main_loop_hold_counter ins AppState_default l s); [cbn; lia|].
    assumption. }
  split; [assumption|]. intros i. rewrite <- Hh.
  assert (Hr : reachable s)
    by (eapply main_loop_reachable; [constructor | exact E]).
  destruct (reachable_classified s Hr) as (H0 & (Hs & Hb & Hi) & _).
  rewrite tick_power_actions.
  destruct (is_pressed i) eqn:Hp.
  - destruct (handle_input_pressed s i Hp) as (s1 & -> & _). cbn.
    split; intros; congruence.
  - destruct (Z.gtb_spec (btn_hold_ticks s) 0) as [Hpos | Hle].
    + apply Z.lt_gt in Hpos. destruct (mode s) eqn:Hm.
      * rewrite (handle_input_release_info s i Hp Hpos Hm). cbn.
        split; intros; congruence.
      * rewrite (handle_input_release_reboot s i Hp Hpos Hm). cbn.
        split; [| intros H; discriminate H]. intros _. split; [reflexivity|].
        destruct (Z.lt_ge_cases (btn_hold_ticks s) REBOOT_HOLD_TICKS) as [Hlt | Hge];
          [| assumption].
        discriminate (Hi Hlt).
      * rewrite (handle_input_release_shutdown s i Hp Hpos Hm). cbn.
        assert (Hge : SHUTDOWN_HOLD_TICKS <= btn_hold_ticks s).
        { destruct (Z.lt_ge_cases (btn_hold_ticks s) SHUTDOWN_HOLD_TICKS)
            as [Hlt | Hge]; [| assumption].
          destruct (Z.lt_ge_cases (btn_hold_ticks s) REBOOT_HOLD_TICKS)
            as [Hlt' | Hge'].
          - discriminate (Hi Hlt').
          - discriminate (Hb (conj Hge' Hlt)). }
        split; intros _; (split; [reflexivity|]); [revert Hge; consts; lia
                                                  | assumption].
    + rewrite (handle_input_not_held s i Hp Hle). cbn.
      split; intros; congruence.
Qed.

Lemma hold_counter_counts_presses_in_a_row_witness :
  exists l s,
    main_loop (idle_input :: repeat pressed_input 30) AppState_default
    = (l, Ok s) /\
    btn_hold_ticks s = held_run (idle_input :: repeat pressed_input 30) /\
    held_run (idle_input :: repeat pressed_input 30) = 30.
Proof.
  do 2 eexists. split; [vm_compute; reflexivity|].
  split; [| reflexivity].
  eapply (hold_counter_counts_presses_in_a_row
            (idle_input :: repeat pressed_input 30)).
  vm_compute. reflexivity.
Defined.
